(** * Greenhouse-gas dashboard: the filter / story / render pipeline

    A shallow embedding of [streamlit_app.py].  The script is a sequence
    of Streamlit calls around three pandas steps; the embedding keeps that
    shape.  Each Python function is a computation in a small state and
    exception monad whose state holds

    - the object store, because the three chart functions receive one
      and the same DataFrame object and change it in place, and
    - the trace, i.e. the Streamlit calls made and the files opened so
      far, in order.

    What lives outside the repository is taken from an environment
    [Env]: the date parser of pandas, the contents of the [data/]
    directory, the clock, and the entries the user picked in the three
    drop-down boxes. *)

From Stdlib Require Import ZArith QArith String Ascii DecimalString.
From stdpp Require Import base numbers option list strings gmap.

Local Open Scope string_scope.
Local Open Scope list_scope.
Local Open Scope Z_scope.

(** ** Python strings and integers *)

(** [str(n)] for an [int]. *)
Definition str_int (z : Z) : string := NilZero.string_of_int (Z.to_int z).

(** [str.upper] and [str.lower], on the ASCII letters (the strings the
    program applies them to are "Select Gas", "CO2" and their images). *)
Definition upper_ascii (c : ascii) : ascii :=
  let n := N_of_ascii c in
  if ((97 <=? n) && (n <=? 122))%N then ascii_of_N (n - 32) else c.

Definition lower_ascii (c : ascii) : ascii :=
  let n := N_of_ascii c in
  if ((65 <=? n) && (n <=? 90))%N then ascii_of_N (n + 32) else c.

Fixpoint map_string (f : ascii → ascii) (s : string) : string :=
  match s with
  | EmptyString => EmptyString
  | String c s' => String (f c) (map_string f s')
  end.

Definition upper : string → string := map_string upper_ascii.
Definition lower : string → string := map_string lower_ascii.

(** Truth value of an optional integer argument in a condition:
    [None] and [0] are false. *)
Definition truthy (v : option Z) : bool :=
  match v with
  | None => false
  | Some z => negb (z =? 0)
  end.

(** [range(lo, hi)] *)
Definition range (lo hi : Z) : list Z :=
  (λ i : nat, lo + Z.of_nat i) <$> seq 0 (Z.to_nat (hi - lo)).

(** ** Dates *)

Record Timestamp := mkTimestamp { ts_year : Z; ts_month : Z; ts_day : Z }.

Inductive exn :=
  | FileNotFoundError
  | ValueError
  | OverflowError
  | KeyError (key : string)
  | InvalidReference.  (* a location outside the store; no Python name ever holds one *)

Inductive outcome (A : Type) :=
  | Ret (a : A)
  | Raise (e : exn).
Arguments Ret {A} a.
Arguments Raise {A} e.

Definition is_leap (y : Z) : bool :=
  ((y mod 4 =? 0) && negb (y mod 100 =? 0)) || (y mod 400 =? 0).

Definition days_in_month (y m : Z) : Z :=
  if m =? 2 then (if is_leap y then 29 else 28)
  else if (m =? 4) || (m =? 6) || (m =? 9) || (m =? 11) then 30
  else 31.

(** The integers a C [int] holds. *)
Definition c_int (z : Z) : bool := (- 2 ^ 31 <=? z) && (z <? 2 ^ 31).

(** The integers [str] and f-strings convert: at most 4300 digits, the
    default limit.  [str_int] itself has no limit; a statement that
    formats a year says that the year is of this kind. *)
Definition printable (z : Z) : Prop := Z.abs z < 10 ^ 4300.

(** [datetime(year, month, day)]: the arguments are read as C ints, an
    [OverflowError] beyond them; then a [ValueError] outside the
    calendar. *)
Definition datetime (y m d : Z) : outcome Timestamp :=
  if negb (c_int y && c_int m && c_int d) then Raise OverflowError
  else if (1 <=? y) && (y <=? 9999) && (1 <=? m) && (m <=? 12)
          && (1 <=? d) && (d <=? days_in_month y m)
  then Ret (mkTimestamp y m d)
  else Raise ValueError.

Definition month_names : list string :=
  ["January"; "February"; "March"; "April"; "May"; "June"; "July";
   "August"; "September"; "October"; "November"; "December"].

(** [t.strftime('%B')]: the full month name (English, the C locale). *)
Definition strftime_B (t : Timestamp) : string :=
  default "" (month_names !! Z.to_nat (ts_month t - 1)).

(** ** Tables *)

(** A cell of a DataFrame. [CNull] is the missing value (NaN, NaT). *)
Inductive cell :=
  | CStr (s : string)
  | CInt (z : Z)
  | CNum (q : Q)
  | CTs (t : Timestamp)
  | CNull.

(** A row holds the columns the program names: [date], [Alt_Mean],
    [std CO2], and [year], which is absent until the program adds it.
    [label] is the row's index label; it survives every filter.  A table
    that lacks one of the first three columns (a [KeyError] at
    [df['date']]) has no counterpart here: every statement below is
    about tables that have them, as the data model of the files says. *)
Record Row := mkRow {
  label : nat;
  date : cell;
  Alt_Mean : cell;
  std_CO2 : cell;
  year : option cell
}.

Definition DataFrame := list Row.

Definition set_date (c : cell) (r : Row) : Row :=
  mkRow (label r) c (Alt_Mean r) (std_CO2 r) (year r).
Definition set_year (c : cell) (r : Row) : Row :=
  mkRow (label r) (date r) (Alt_Mean r) (std_CO2 r) (Some c).

(** ** Charts and the trace *)

Inductive chart := Line | Scatter.

(** What [px.line] / [px.scatter] is given: the rows, the two column
    names and the title. *)
Record Figure := mkFigure {
  fig_chart : chart;
  fig_data : DataFrame;
  fig_x : string;
  fig_y : string;
  fig_title : string
}.

Inductive event :=
  | StTitle (s : string)
  | StSelectbox (lbl : string)
  | StInfo (s : string)
  | StError (s : string)
  | StWarning (s : string)
  | StPlotlyChart (fig : Figure) (use_container_width : bool)
  | StWrite (s : string)
  | OpenFile (path : string).

(** ** The environment *)

Inductive year_option :=
  | SelectYear          (* the string 'Select Year' *)
  | YearInt (y : Z).    (* an element of the range *)

Record Env := mkEnv {
  (** [pd.to_datetime] on one value of a column; it is given the whole
      column too, since pandas settles on a format by looking at it. *)
  parse_date : list cell → cell → option Timestamp;
  (** the files under the working directory, already read as tables *)
  files : gmap string DataFrame;
  (** [datetime.now().year] *)
  now_year : Z;
  (** the position the user chose in the drop-down with the given label *)
  pick : string → nat
}.

(** ** The monad *)

Definition loc := nat.

Record State := mkState { heap : list DataFrame; trace : list event }.

Definition M (A : Type) : Type := State → State * outcome A.

Definition run {A} (m : M A) (σ : State) : State * outcome A := m σ.

Global Instance M_ret : MRet M := λ A a σ, (σ, Ret a).
Global Instance M_bind : MBind M := λ A B f m σ,
  match m σ with
  | (σ', Ret a) => f a σ'
  | (σ', Raise e) => (σ', Raise e)
  end.

Definition raise {A} (e : exn) : M A := λ σ, (σ, Raise e).

Definition lift {A} (o : outcome A) : M A := λ σ, (σ, o).

(** [try: m  except e: h e], where [h e = None] lets [e] pass. *)
Definition try_except {A} (m : M A) (h : exn → option (M A)) : M A := λ σ,
  match m σ with
  | (σ', Ret a) => (σ', Ret a)
  | (σ', Raise e) =>
      match h e with
      | Some k => k σ'
      | None => (σ', Raise e)
      end
  end.

Definition emit (e : event) : M unit := λ σ,
  (mkState (heap σ) (trace σ ++ [e]), Ret tt).

(** A new object in the store. *)
Definition alloc (d : DataFrame) : M loc := λ σ,
  (mkState (heap σ ++ [d]) (trace σ), Ret (length (heap σ))).

Definition deref (df : loc) : M DataFrame := λ σ,
  match heap σ !! df with
  | Some d => (σ, Ret d)
  | None => (σ, Raise InvalidReference)
  end.

(** The object at [df] is replaced by [f] of it: a change in place. *)
Definition modify (df : loc) (f : DataFrame → DataFrame) : M unit := λ σ,
  match heap σ !! df with
  | Some d => (mkState (<[df := f d]> (heap σ)) (trace σ), Ret tt)
  | None => (σ, Raise InvalidReference)
  end.

(** ** The program *)

Section Dashboard.
Context (env : Env).

(** *** Streamlit *)

Definition st_title (s : string) : M unit := emit (StTitle s).
Definition st_info (s : string) : M unit := emit (StInfo s).
Definition st_error (s : string) : M unit := emit (StError s).
Definition st_warning (s : string) : M unit := emit (StWarning s).
Definition st_write (s : string) : M unit := emit (StWrite s).
Definition st_plotly_chart (fig : Figure) (use_container_width : bool) : M unit :=
  emit (StPlotlyChart fig use_container_width).

(** [st.selectbox(lbl, options)]: the entry the user chose, the first
    one while nothing is chosen.  (No drop-down of the program is empty.) *)
Definition st_selectbox {A} (lbl : string) (options : list A) : M A :=
  emit (StSelectbox lbl);;
  match options !! pick env lbl, head options with
  | Some v, _ => mret v
  | None, Some v => mret v
  | None, None => raise (KeyError lbl)
  end.

(** *** pandas and plotly *)

(** [df['date']] *)
Definition getitem_date (df : loc) : M (list cell) :=
  d ← deref df; mret (date <$> d).

(** [df['year']]: a [KeyError] while the column is absent. *)
Definition getitem_year (df : loc) : M (list cell) :=
  d ← deref df;
  match mapM year d with
  | Some col => mret col
  | None => raise (KeyError "year")
  end.

(** [pd.to_datetime(col, errors='coerce')]: what is a date already stays,
    what does not parse becomes NaT. *)
Definition coerce (col : list cell) (c : cell) : cell :=
  match c with
  | CTs t => CTs t
  | CNull => CNull
  | _ => match parse_date env col c with
         | Some t => CTs t
         | None => CNull
         end
  end.

Definition to_datetime (col : list cell) : list cell := coerce col <$> col.

(** [df['date'] = col] and [df['year'] = col], on the object itself. *)
Definition setitem_date (df : loc) (col : list cell) : M unit :=
  modify df (λ d, zip_with (λ r c, set_date c r) d col).
Definition setitem_year (df : loc) (col : list cell) : M unit :=
  modify df (λ d, zip_with (λ r c, set_year c r) d col).

Definition notna (c : cell) : bool :=
  match c with CNull => false | _ => true end.

(** The rows of [d] at which [mask] holds. *)
Fixpoint boolean_index (d : DataFrame) (mask : list bool) : DataFrame :=
  match d, mask with
  | r :: d', b :: mask' =>
      if b then r :: boolean_index d' mask' else boolean_index d' mask'
  | _, _ => []
  end.

(** [df.dropna(subset=['date'], inplace=True)] *)
Definition dropna_date_inplace (df : loc) : M unit :=
  modify df (λ d, boolean_index d (notna <$> (date <$> d))).

(** [col.dt.year] and [col.dt.month] *)
Definition dt_year (col : list cell) : list cell :=
  (λ c, match c with CTs t => CInt (ts_year t) | _ => CNull end) <$> col.
Definition dt_month (col : list cell) : list cell :=
  (λ c, match c with CTs t => CInt (ts_month t) | _ => CNull end) <$> col.

(** [col == z] for an integer [z], and [mask1 & mask2] *)
Definition series_eq (col : list cell) (z : Z) : list bool :=
  (λ c, match c with CInt v => v =? z | _ => false end) <$> col.
Definition mask_and (m1 m2 : list bool) : list bool := zip_with andb m1 m2.

(** [df[mask]]: a new DataFrame object. *)
Definition getitem_mask (df : loc) (mask : list bool) : M loc :=
  d ← deref df; alloc (boolean_index d mask).

(** [df.empty] and [len(df)] *)
Definition empty (df : loc) : M bool :=
  d ← deref df; mret (match d with [] => true | _ :: _ => false end).
Definition len (df : loc) : M Z :=
  d ← deref df; mret (Z.of_nat (length d)).

(** [px.line(df, x=, y=, title=)] and [px.scatter(...)] *)
Definition px_line (df : loc) (x y title : string) : M Figure :=
  d ← deref df; mret (mkFigure Line d x y title).
Definition px_scatter (df : loc) (x y title : string) : M Figure :=
  d ← deref df; mret (mkFigure Scatter d x y title).

(** *** [read_data] *)

(** Modelled from the spec: [read_data.data_reader] is imported by the
    script and is not among its sources.  It "loads [data/<gas>.csv]
    through the external loader" and "fails with a not-found condition
    when the backing source does not exist": the table of the file as a
    new object, or [FileNotFoundError].  The call is recorded in the
    trace as [OpenFile]. *)
Definition data_reader (file_path : string) : M loc :=
  emit (OpenFile file_path);;
  match files env !! file_path with
  | Some d => alloc d
  | None => raise FileNotFoundError
  end.

(** *** [streamlit_app.py] *)

Definition select_gas : M string :=
  selected_gas ← st_selectbox "Select Gas" ["Select Gas"; "CO2"];
  mret (lower selected_gas).

Definition select_year : M (option Z) :=
  selected_year ←
    st_selectbox "Select Year"
      ([SelectYear] ++ (YearInt <$> range 2000 (now_year env + 1)));
  mret (match selected_year with
        | SelectYear => None
        | YearInt y => Some y
        end).

Definition month_dict : gmap string Z :=
  list_to_map
    [("Jan", 1); ("Feb", 2); ("Mar", 3); ("Apr", 4);
     ("May", 5); ("Jun", 6); ("Jul", 7); ("Aug", 8);
     ("Sep", 9); ("Oct", 10); ("Nov", 11); ("Dec", 12)].

Definition select_month : M (option Z) :=
  selected_month ←
    st_selectbox "Select Month"
      ["Select Month"; "Jan"; "Feb"; "Mar"; "Apr"; "May"; "Jun"; "Jul";
       "Aug"; "Sep"; "Oct"; "Nov"; "Dec"];
  mret (month_dict !! selected_month).

Definition get_data_source (selected_gas : string) : M (option loc) :=
  let file_path := "data/" +:+ selected_gas +:+ ".csv" in
  if decide (selected_gas = "select gas") then mret None
  else
    try_except
      (df ← data_reader file_path; mret (Some df))
      (λ e, match e with
            | FileNotFoundError =>
                Some (st_error ("No file found for " +:+ selected_gas);;
                      mret None)
            | _ => None
            end).

(** An optional integer inside an f-string, and where an [int] is
    required (only reached under a truth test, so on [Some]). *)
Definition fmt (v : option Z) : string :=
  match v with Some z => str_int z | None => "None" end.
Definition int_arg (v : option Z) : Z := default 0 v.

Definition generate_story (df : loc) (selected_gas : string)
    (selected_year selected_month : option Z) (chart_type : option string)
    : M string :=
  total_rows ← len df;
  let gas_name := upper selected_gas in
  let story_type :=
    if decide (chart_type = Some "line") then "Line Chart"
    else if decide (chart_type = Some "scatter") then "Scatter Plot"
    else if decide (chart_type = Some "std_scatter")
         then "Standard Deviation Scatter Plot"
    else "Data Overview" in
  if truthy selected_year && truthy selected_month then
    t ← lift (datetime 2000 (int_arg selected_month) 1);
    mret ("The " +:+ story_type +:+ " represents the concentration of "
          +:+ gas_name +:+ " during "
          +:+ strftime_B t +:+ " " +:+ fmt selected_year
          +:+ ". The dataset contains "
          +:+ str_int total_rows
          +:+ " data points for this time period, showing how the concentration of "
          +:+ gas_name +:+ " "
          +:+ "varied across this month.")
  else if truthy selected_year then
    mret ("The " +:+ story_type +:+ " highlights the " +:+ gas_name
          +:+ " levels recorded in " +:+ fmt selected_year +:+ ". "
          +:+ "There are " +:+ str_int total_rows
          +:+ " data points representing " +:+ gas_name
          +:+ " concentration changes over the year. "
          +:+ "This visualization captures the yearly fluctuation and trends in gas concentration.")
  else
    mret ("The " +:+ story_type +:+ " covers the full dataset with "
          +:+ str_int total_rows +:+ " records for " +:+ gas_name +:+ ". "
          +:+ "This chart provides a comprehensive overview of {gas_name} concentrations over the entire recorded "
          +:+ "period, allowing us to observe both seasonal and longer-term trends.").

Definition draw_time_series (df : loc) (selected_gas : string)
    (selected_year selected_month : option Z) : M unit :=
  col ← getitem_date df;
  setitem_date df (to_datetime col);;
  dropna_date_inplace df;;
  col ← getitem_date df;
  setitem_year df (dt_year col);;
  match selected_year, selected_month with
  | None, None =>
      fig ← px_line df "date" "Alt_Mean" "Full Dataset: Alt_Mean Over Time";
      st_plotly_chart fig true;;
      story ← generate_story df selected_gas None None (Some "line");
      st_write story
  | Some y, None =>
      col ← getitem_year df;
      filtered_df ← getitem_mask df (series_eq col y);
      e ← empty filtered_df;
      if negb e then
        fig ← px_line filtered_df "date" "Alt_Mean"
                ("Alt_Mean Over Time in " +:+ str_int y);
        st_plotly_chart fig true;;
        story ← generate_story filtered_df selected_gas selected_year None
                  (Some "line");
        st_write story
      else st_warning "No data available for the selected year."
  | Some y, Some m =>
      col ← getitem_year df;
      col' ← getitem_date df;
      filtered_df ←
        getitem_mask df (mask_and (series_eq col y) (series_eq (dt_month col') m));
      e ← empty filtered_df;
      if negb e then
        fig ← px_line filtered_df "date" "std CO2"
                ("Standard Deviation of CO2 in " +:+ str_int m +:+ " " +:+ str_int y);
        st_plotly_chart fig true;;
        story ← generate_story filtered_df selected_gas selected_year
                  selected_month (Some "line");
        st_write story
      else st_warning "No data available for the selected month and year."
  | None, Some _ => mret tt
  end.

Definition draw_scatter_plot (df : loc) (selected_gas : string)
    (selected_year selected_month : option Z) : M unit :=
  col ← getitem_date df;
  setitem_date df (to_datetime col);;
  dropna_date_inplace df;;
  col ← getitem_date df;
  setitem_year df (dt_year col);;
  match selected_year, selected_month with
  | None, None =>
      fig ← px_scatter df "date" "Alt_Mean" "Full Dataset: Alt_Mean Over Time";
      st_plotly_chart fig true;;
      story ← generate_story df selected_gas None None (Some "scatter");
      st_write story
  | Some y, None =>
      col ← getitem_year df;
      filtered_df ← getitem_mask df (series_eq col y);
      e ← empty filtered_df;
      if negb e then
        fig ← px_scatter filtered_df "date" "Alt_Mean"
                ("Alt_Mean Over Time in " +:+ str_int y);
        st_plotly_chart fig true;;
        story ← generate_story filtered_df selected_gas selected_year None
                  (Some "scatter");
        st_write story
      else st_warning "No data available for the selected year."
  | Some y, Some m =>
      col ← getitem_year df;
      col' ← getitem_date df;
      filtered_df ←
        getitem_mask df (mask_and (series_eq col y) (series_eq (dt_month col') m));
      e ← empty filtered_df;
      if negb e then
        fig ← px_scatter filtered_df "date" "Alt_Mean"
                ("Alt_Mean Over Time in " +:+ str_int m +:+ " " +:+ str_int y);
        st_plotly_chart fig true;;
        story ← generate_story filtered_df selected_gas selected_year
                  selected_month (Some "scatter");
        st_write story
      else st_warning "No data available for the selected month and year."
  | None, Some _ => mret tt
  end.

Definition draw_std_co2_scatter_plot (df : loc) (selected_gas : string)
    (selected_year selected_month : option Z) : M unit :=
  col ← getitem_date df;
  setitem_date df (to_datetime col);;
  dropna_date_inplace df;;
  col ← getitem_date df;
  setitem_year df (dt_year col);;
  match selected_year, selected_month with
  | None, None =>
      fig ← px_scatter df "date" "std CO2" "Full Dataset: std CO2 Over Time";
      st_plotly_chart fig true;;
      story ← generate_story df selected_gas None None (Some "std_scatter");
      st_write story
  | Some y, None =>
      col ← getitem_year df;
      filtered_df ← getitem_mask df (series_eq col y);
      e ← empty filtered_df;
      if negb e then
        fig ← px_scatter filtered_df "date" "std CO2"
                ("std CO2 Over Time in " +:+ str_int y);
        st_plotly_chart fig true;;
        story ← generate_story filtered_df selected_gas selected_year None
                  (Some "std_scatter");
        st_write story
      else st_warning "No data available for the selected year."
  | Some y, Some m =>
      col ← getitem_year df;
      col' ← getitem_date df;
      filtered_df ←
        getitem_mask df (mask_and (series_eq col y) (series_eq (dt_month col') m));
      e ← empty filtered_df;
      if negb e then
        fig ← px_scatter filtered_df "date" "std CO2"
                ("std CO2 Over Time in " +:+ str_int m +:+ " " +:+ str_int y);
        st_plotly_chart fig true;;
        story ← generate_story filtered_df selected_gas selected_year
                  selected_month (Some "std_scatter");
        st_write story
      else st_warning "No data available for the selected month and year."
  | None, Some _ => mret tt
  end.

Definition main : M unit :=
  st_title "Atmospheric Gases Concentration Dashboard";;
  selected_gas ← select_gas;
  selected_year ← select_year;
  selected_month ← select_month;
  if decide (selected_gas = "select gas") then
    st_info "Please select a gas to start."
  else
    df ← get_data_source selected_gas;
    match df with
    | Some df =>
        draw_time_series df selected_gas selected_year selected_month;;
        draw_scatter_plot df selected_gas selected_year selected_month;;
        draw_std_co2_scatter_plot df selected_gas selected_year selected_month
    | None => mret tt
    end.

End Dashboard.

(** ** What the run amounts to

    Closed forms of the steps above, used to state the properties: the
    table the three cleaning statements leave, the rows a selection
    keeps, the sentence for a table of [n] rows, and the figure of each
    pipeline. *)

Section Descriptions.
Context (env : Env).

(** The table after the three cleaning statements, step by step. *)
Definition clean_steps (d : DataFrame) : DataFrame :=
  let d1 := zip_with (λ r c, set_date c r) d (to_datetime env (date <$> d)) in
  let d2 := boolean_index d1 (notna <$> (date <$> d1)) in
  zip_with (λ r c, set_year c r) d2 (dt_year (date <$> d2)).

Definition year_of (c : cell) : cell :=
  match c with CTs t => CInt (ts_year t) | _ => CNull end.

(** The date of a row as pandas reads it, the column being [col]. *)
Definition parsed (col : list cell) (r : Row) : option Timestamp :=
  match coerce env col (date r) with
  | CTs t => Some t
  | _ => None
  end.

(** A row after cleaning: its date a timestamp, its year derived. *)
Definition cleaned_row (r : Row) (t : Timestamp) : Row :=
  mkRow (label r) (CTs t) (Alt_Mean r) (std_CO2 r) (Some (CInt (ts_year t))).

Definition clean (d : DataFrame) : DataFrame :=
  omap (λ r, cleaned_row r <$> parsed (date <$> d) r) d.

(** Does a date fall in the selected year (and month)? *)
Definition in_selection (y : Z) (m : option Z) (t : Timestamp) : bool :=
  (ts_year t =? y) &&
  match m with
  | None => true
  | Some m => ts_month t =? m
  end.

(** The rows of the dataset [d] that a selection asks for: those whose
    date parses and lies in the selected year (and month), in the
    order of [d]; all rows whose date parses when no year is selected. *)
Definition selected_rows (d : DataFrame) (y m : option Z) : DataFrame :=
  match y with
  | None => clean d
  | Some y =>
      omap (λ r,
              t ← parsed (date <$> d) r;
              if in_selection y m t then Some (cleaned_row r t) else None) d
  end.

(** The sentence [generate_story] returns for a table of [n] rows: the
    function reads nothing of the table but its length, so it is run
    here on [n] blank rows. *)
Definition story_for_count (n : nat) (selected_gas : string)
    (selected_year selected_month : option Z) (chart_type : option string)
    : outcome string :=
  snd (run (generate_story 0%nat selected_gas selected_year selected_month
              chart_type)
           (mkState [replicate n (mkRow 0 CNull CNull CNull None)] [])).

End Descriptions.

Inductive pipeline := TimeSeries | ScatterPlot | StdScatter.

Definition draw (env : Env) (p : pipeline) : loc → string → option Z → option Z → M unit :=
  match p with
  | TimeSeries => draw_time_series env
  | ScatterPlot => draw_scatter_plot env
  | StdScatter => draw_std_co2_scatter_plot env
  end.

(** The [chart_type] each pipeline hands to [generate_story]. *)
Definition chart_type (p : pipeline) : string :=
  match p with
  | TimeSeries => "line"
  | ScatterPlot => "scatter"
  | StdScatter => "std_scatter"
  end.

(** The column each pipeline puts on the y-axis, per branch. *)
Definition y_axis (p : pipeline) (selected_month : option Z) : string :=
  match p, selected_month with
  | TimeSeries, Some _ => "std CO2"
  | TimeSeries, None => "Alt_Mean"
  | ScatterPlot, _ => "Alt_Mean"
  | StdScatter, _ => "std CO2"
  end.

Definition warning_text (selected_month : option Z) : string :=
  match selected_month with
  | None => "No data available for the selected year."
  | Some _ => "No data available for the selected month and year."
  end.

Definition title (p : pipeline) (selected_year selected_month : option Z) : string :=
  match p, selected_year, selected_month with
  | TimeSeries, Some y, Some m =>
      "Standard Deviation of CO2 in " +:+ str_int m +:+ " " +:+ str_int y
  | ScatterPlot, Some y, Some m =>
      "Alt_Mean Over Time in " +:+ str_int m +:+ " " +:+ str_int y
  | StdScatter, Some y, Some m =>
      "std CO2 Over Time in " +:+ str_int m +:+ " " +:+ str_int y
  | (TimeSeries | ScatterPlot), Some y, None =>
      "Alt_Mean Over Time in " +:+ str_int y
  | StdScatter, Some y, None => "std CO2 Over Time in " +:+ str_int y
  | (TimeSeries | ScatterPlot), None, _ => "Full Dataset: Alt_Mean Over Time"
  | StdScatter, None, _ => "Full Dataset: std CO2 Over Time"
  end.

(** The figure a pipeline builds from the rows it is left with. *)
Definition figure (p : pipeline) (selected_year selected_month : option Z)
    (rows : DataFrame) : Figure :=
  mkFigure (match p with TimeSeries => Line | _ => Scatter end)
           rows "date" (y_axis p selected_month)
           (title p selected_year selected_month).

(** Chart, then story: the end of a branch that has rows to show.  The
    story is missing when the month is not a calendar month. *)
Definition present (p : pipeline) (fig : Figure) (selected_gas : string)
    (selected_year selected_month : option Z) (σ : State)
    : State * outcome unit :=
  match story_for_count (length (fig_data fig)) selected_gas selected_year
          selected_month (Some (chart_type p)) with
  | Ret s =>
      (mkState (heap σ) (trace σ ++ [StPlotlyChart fig true; StWrite s]), Ret tt)
  | Raise e =>
      (mkState (heap σ) (trace σ ++ [StPlotlyChart fig true]), Raise e)
  end.

(** The whole effect of one pipeline on a store that holds [d] at [df]. *)
Definition draw_result (env : Env) (p : pipeline) (σ : State) (df : loc)
    (d : DataFrame) (selected_gas : string)
    (selected_year selected_month : option Z) : State * outcome unit :=
  let σ1 := mkState (<[df := clean env d]> (heap σ)) (trace σ) in
  match selected_year, selected_month with
  | None, None =>
      present p (figure p None None (clean env d)) selected_gas None None σ1
  | None, Some _ => (σ1, Ret tt)
  | Some _, _ =>
      let rows := selected_rows env d selected_year selected_month in
      let σ2 := mkState (heap σ1 ++ [rows]) (trace σ) in
      match rows with
      | [] =>
          (mkState (heap σ2)
             (trace σ ++ [StWarning (warning_text selected_month)]),
           Ret tt)
      | _ :: _ =>
          present p (figure p selected_year selected_month rows)
            selected_gas selected_year selected_month σ2
      end
  end.

(** What the three drop-downs return for the user's choices. *)
Definition chosen_gas (env : Env) : string :=
  lower (default "Select Gas" (["Select Gas"; "CO2"] !! pick env "Select Gas")).

Definition chosen_year (env : Env) : option Z :=
  match default SelectYear
          (([SelectYear] ++ (YearInt <$> range 2000 (now_year env + 1)))
             !! pick env "Select Year") with
  | SelectYear => None
  | YearInt y => Some y
  end.

Definition chosen_month (env : Env) : option Z :=
  month_dict !!
    default "Select Month"
      (["Select Month"; "Jan"; "Feb"; "Mar"; "Apr"; "May"; "Jun"; "Jul";
        "Aug"; "Sep"; "Oct"; "Nov"; "Dec"] !! pick env "Select Month").

(** The page once [main] has drawn the title and the three drop-downs. *)
Definition header : list event :=
  [StTitle "Atmospheric Gases Concentration Dashboard";
   StSelectbox "Select Gas"; StSelectbox "Select Year";
   StSelectbox "Select Month"].

(** The label [generate_story] derives from [chart_type]. *)
Definition story_label (chart_type : option string) : string :=
  if decide (chart_type = Some "line") then "Line Chart"
  else if decide (chart_type = Some "scatter") then "Scatter Plot"
  else if decide (chart_type = Some "std_scatter")
       then "Standard Deviation Scatter Plot"
  else "Data Overview".

(** The words around the row count [n], per branch of [generate_story]. *)
Definition count_phrase (selected_year selected_month : option Z) (n : nat)
    : string :=
  if truthy selected_year && truthy selected_month then
    "The dataset contains " +:+ str_int (Z.of_nat n)
    +:+ " data points for this time period"
  else if truthy selected_year then
    "There are " +:+ str_int (Z.of_nat n) +:+ " data points representing "
  else
    "covers the full dataset with " +:+ str_int (Z.of_nat n) +:+ " records for ".

Definition is_chart (e : event) : bool :=
  match e with StPlotlyChart _ _ => true | _ => false end.

(** The stories on a page, in order. *)
Definition stories (evs : list event) : list string :=
  omap (λ e, match e with StWrite s => Some s | _ => None end) evs.

(** The figures, the warnings and the files opened, in order. *)
Definition charts (evs : list event) : list Figure :=
  omap (λ e, match e with StPlotlyChart fig _ => Some fig | _ => None end) evs.
Definition warnings (evs : list event) : list string :=
  omap (λ e, match e with StWarning s => Some s | _ => None end) evs.
Definition opened (evs : list event) : list string :=
  omap (λ e, match e with OpenFile path => Some path | _ => None end) evs.

(** What [present] adds to the page, and what one pipeline adds for the
    table [d]. *)
Definition present_events (p : pipeline) (fig : Figure) (selected_gas : string)
    (selected_year selected_month : option Z) : list event :=
  match story_for_count (length (fig_data fig)) selected_gas selected_year
          selected_month (Some (chart_type p)) with
  | Ret s => [StPlotlyChart fig true; StWrite s]
  | Raise _ => [StPlotlyChart fig true]
  end.

Definition draw_events (env : Env) (p : pipeline) (d : DataFrame)
    (selected_gas : string) (selected_year selected_month : option Z)
    : list event :=
  match selected_year, selected_month with
  | None, None =>
      present_events p (figure p None None (clean env d)) selected_gas None None
  | None, Some _ => []
  | Some _, _ =>
      match selected_rows env d selected_year selected_month with
      | [] => [StWarning (warning_text selected_month)]
      | rows =>
          present_events p (figure p selected_year selected_month rows)
            selected_gas selected_year selected_month
      end
  end.

(** A date of the calendar, as far as the month goes. *)
Definition calendar_month (t : Timestamp) : Prop := 1 ≤ ts_month t ≤ 12.

(** Every date the table holds or the parser yields is of the calendar. *)
Definition calendar_dates (env : Env) (d : DataFrame) : Prop :=
  (∀ r t, r ∈ d → date r = CTs t → calendar_month t) ∧
  (∀ col c t, parse_date env col c = Some t → calendar_month t).

(** The rows of a cleaned table: a timestamp and its year. *)
Definition clean_row (r : Row) : Prop :=
  ∃ t, date r = CTs t ∧ year r = Some (CInt (ts_year t)).

(** ** A sample run

    The dataset of the spec's examples (three rows dated 2015-01-01,
    2015-06-15 and 2016-02-10), with one more row whose date is not a
    date, behind a parser for [YYYY-MM-DD]. *)

Definition digit (c : ascii) : option Z :=
  let n := N_of_ascii c in
  if ((48 <=? n) && (n <=? 57))%N then Some (Z.of_N (n - 48)) else None.

Fixpoint number (acc : Z) (s : string) : option Z :=
  match s with
  | EmptyString => Some acc
  | String c s' => d ← digit c; number (10 * acc + d) s'
  end.

Definition iso_date (col : list cell) (c : cell) : option Timestamp :=
  match c with
  | CStr s =>
      if decide (String.length s = 10%nat ∧ substring 4 1 s = "-" ∧ substring 7 1 s = "-")
      then
        y ← number 0 (substring 0 4 s);
        m ← number 0 (substring 5 2 s);
        d ← number 0 (substring 8 2 s);
        match datetime y m d with Ret t => Some t | Raise _ => None end
      else None
  | _ => None
  end.

Definition sample_csv : DataFrame :=
  [ mkRow 0 (CStr "2015-01-01") (CNum (3985 # 10)) (CNum (2 # 10)) None;
    mkRow 1 (CStr "2015-06-15") (CNum (4012 # 10)) (CNum (3 # 10)) None;
    mkRow 2 (CStr "n/a") (CNum (4000 # 10)) CNull None;
    mkRow 3 (CStr "2016-02-10") (CNum (4020 # 10)) (CNum (1 # 10)) None ].

(** The user's choices: position [g] in the gas box, [y] in the year
    box, [m] in the month box. *)
Definition choose (g y m : nat) (lbl : string) : nat :=
  if decide (lbl = "Select Gas") then g
  else if decide (lbl = "Select Year") then y
  else if decide (lbl = "Select Month") then m
  else 0%nat.

Definition sample_env (g y m : nat) : Env :=
  mkEnv iso_date {[ "data/co2.csv" := sample_csv ]} 2024 (choose g y m).

Definition empty_env (g y m : nat) : Env :=
  mkEnv iso_date ∅ 2024 (choose g y m).

Definition start : State := mkState [] [].
Definition loaded (d : DataFrame) : State := mkState [d] [].

(** * Properties *)

(** ** Tables and masks *)

Section Lemmas.
Context (env : Env).

Lemma boolean_index_fmap (g : Row → bool) (d : DataFrame) :
  boolean_index d (g <$> d) = omap (λ r, if g r then Some r else None) d.
Proof.
  induction d as [|r d IH]; simpl; [done|].
  destruct (g r); [f_equal|]; apply IH.
Qed.

Lemma zip_with_fmap_self {A B C} (f : A → B → C) (g : A → B) (l : list A) :
  zip_with f l (g <$> l) = (λ x, f x (g x)) <$> l.
Proof. induction l; simpl; by f_equal. Qed.

Lemma coerce_cases col c :
  (∃ t, coerce env col c = CTs t) ∨ coerce env col c = CNull.
Proof.
  destruct c; simpl; eauto; destruct (parse_date env _ _); eauto.
Qed.

Lemma clean_rows col (d : list Row) :
  (λ r, set_year (year_of (date r)) r) <$>
    omap (λ r, if notna (date r) then Some r else None)
      ((λ r, set_date (coerce env col (date r)) r) <$> d)
  = omap (λ r, cleaned_row r <$> parsed env col r) d.
Proof.
  induction d as [|r d IH]; [done|].
  cbn [fmap list_fmap omap list_omap]. unfold parsed at 1.
  cbn [date set_date].
  destruct (coerce_cases col (date r)) as [[t Ht] | Ht]; rewrite Ht; cbn.
  - f_equal. apply IH.
  - apply IH.
Qed.

Lemma clean_steps_eq (d : list Row) : clean_steps env d = clean env d.
Proof.
  unfold clean_steps, clean, to_datetime.
  rewrite <- (clean_rows (date <$> d) d).
  rewrite <- (list_fmap_compose date (coerce env (date <$> d))).
  rewrite (zip_with_fmap_self (λ r c, set_date c r)).
  rewrite <- (list_fmap_compose date notna).
  rewrite boolean_index_fmap.
  change dt_year with (fmap (M:=list) year_of).
  rewrite <- (list_fmap_compose date year_of).
  by rewrite (zip_with_fmap_self (λ r c, set_year c r)).
Qed.

Lemma bind_assoc {A B C} (m : M A) (f : A → M B) (k : B → M C) σ :
  ((m ≫= f) ≫= k) σ = (m ≫= (λ a, f a ≫= k)) σ.
Proof. unfold mbind, M_bind. destruct (m σ) as [σ' [a|e]]; done. Qed.

Lemma bind_ret {A B} (a : A) (k : A → M B) σ : (mret a ≫= k) σ = k a σ.
Proof. done. Qed.

Lemma bind_emit {B} e (k : unit → M B) σ :
  (emit e ≫= k) σ = k tt (mkState (heap σ) (trace σ ++ [e])).
Proof. done. Qed.

Lemma bind_alloc {B} d (k : loc → M B) σ :
  (alloc d ≫= k) σ = k (length (heap σ)) (mkState (heap σ ++ [d]) (trace σ)).
Proof. done. Qed.

Lemma bind_deref {B} df d (k : DataFrame → M B) σ :
  heap σ !! df = Some d → (deref df ≫= k) σ = k d σ.
Proof. intros H. unfold mbind, M_bind, deref. by rewrite H. Qed.

Lemma bind_modify {B} df d f (k : unit → M B) σ :
  heap σ !! df = Some d →
  (modify df f ≫= k) σ = k tt (mkState (<[df := f d]> (heap σ)) (trace σ)).
Proof. intros H. unfold mbind, M_bind, modify. by rewrite H. Qed.

Lemma lookup_inserted (h : list DataFrame) df d x :
  h !! df = Some d → <[df := x]> h !! df = Some x.
Proof. intros H. apply list_lookup_insert_eq. by eapply lookup_lt_Some. Qed.

Lemma lookup_new (h : list DataFrame) (x : DataFrame) :
  (h ++ [x]) !! length h = Some x.
Proof. by rewrite lookup_app_r, Nat.sub_diag by lia. Qed.

Lemma prelude_run {B} σ df d (k : M B) :
  heap σ !! df = Some d →
  (col ← getitem_date df;
   setitem_date df (to_datetime env col);;
   dropna_date_inplace df;;
   col ← getitem_date df;
   setitem_year df (dt_year col);;
   k) σ
  = k (mkState (<[df := clean env d]> (heap σ)) (trace σ)).
Proof.
  intros H. rewrite <- clean_steps_eq.
  unfold getitem_date, setitem_date, dropna_date_inplace, setitem_year.
  rewrite bind_assoc, (bind_deref df d) by done. rewrite bind_ret.
  rewrite (bind_modify df d) by done.
  erewrite bind_modify by (by eapply lookup_inserted).
  rewrite bind_assoc. erewrite bind_deref by (cbn [heap]; eapply lookup_inserted, lookup_inserted, H).
  rewrite bind_ret.
  erewrite bind_modify by (cbn [heap]; eapply lookup_inserted, lookup_inserted, H).
  cbn [heap trace]. rewrite !list_insert_insert_eq. done.
Qed.

Lemma clean_year_column (d : list Row) :
  mapM year (clean env d) = Some (dt_year (date <$> clean env d)).
Proof.
  unfold clean. generalize (date <$> d) as col. intros col.
  induction d as [|r d IH]; [done|].
  cbn [omap list_omap]. destruct (parsed env col r) as [t|]; [|done].
  cbn [fmap option_fmap option_map]. cbn. cbn in IH. by rewrite IH.
Qed.

Lemma mask_year (d : list Row) y :
  boolean_index (clean env d) (series_eq (dt_year (date <$> clean env d)) y)
  = selected_rows env d (Some y) None.
Proof.
  unfold clean, selected_rows. generalize (date <$> d) as col. intros col.
  induction d as [|r d IH]; [done|].
  cbn [omap list_omap]. destruct (parsed env col r) as [t|]; [|done].
  cbn. unfold in_selection. rewrite andb_true_r.
  destruct (ts_year t =? y); [f_equal|]; apply IH.
Qed.

Lemma mask_year_month (d : list Row) y m :
  boolean_index (clean env d)
    (mask_and (series_eq (dt_year (date <$> clean env d)) y)
              (series_eq (dt_month (date <$> clean env d)) m))
  = selected_rows env d (Some y) (Some m).
Proof.
  unfold clean, selected_rows. generalize (date <$> d) as col. intros col.
  induction d as [|r d IH]; [done|].
  cbn [omap list_omap]. destruct (parsed env col r) as [t|]; [|done].
  cbn. unfold in_selection.
  destruct (ts_year t =? y), (ts_month t =? m); cbn; [f_equal| | |]; apply IH.
Qed.

Lemma generate_story_run {B} σ df d gas y m ct (k : string → M B) :
  heap σ !! df = Some d →
  (generate_story df gas y m ct ≫= k) σ =
  match story_for_count (length d) gas y m ct with
  | Ret s => k s σ
  | Raise e => (σ, Raise e)
  end.
Proof.
  intros H. unfold story_for_count, run, generate_story, len.
  rewrite !bind_assoc. rewrite (bind_deref df d) by done.
  rewrite (bind_deref 0%nat (replicate (length d) (mkRow 0 CNull CNull CNull None))) by done.
  rewrite !bind_ret, length_replicate.
  destruct (truthy y && truthy m).
  - rewrite bind_assoc. unfold mbind, M_bind, lift.
    destruct (datetime 2000 (int_arg m) 1); done.
  - destruct (truthy y); done.
Qed.

(** ** One pipeline *)

Ltac lookup_df :=
  cbn [heap];
  first [ eassumption
        | apply lookup_new
        | rewrite lookup_app_l by (rewrite length_insert; eapply lookup_lt_Some; eassumption);
          eapply lookup_inserted; eassumption
        | eapply lookup_inserted; eassumption ].

Ltac step :=
  first [ rewrite bind_assoc
        | rewrite bind_ret
        | rewrite bind_emit
        | rewrite bind_alloc
        | erewrite bind_deref by lookup_df
        | erewrite generate_story_run by lookup_df ].

Ltac finish_present :=
  unfold present, figure; cbn [fig_data chart_type y_axis title heap trace];
  match goal with
  | |- context [story_for_count ?n ?g ?y ?m ?c] =>
      destruct (story_for_count n g y m c)
  end;
  unfold st_write, emit; cbn [heap trace]; rewrite <- ?app_assoc; reflexivity.

Lemma draw_run p σ df d gas y m :
  heap σ !! df = Some d →
  run (draw env p df gas y m) σ = draw_result env p σ df d gas y m.
Proof.
  intros H. unfold run, draw_result.
  destruct p; unfold draw, draw_time_series, draw_scatter_plot,
    draw_std_co2_scatter_plot; rewrite (prelude_run σ df d) by done;
  destruct y as [y|], m as [m|]; try reflexivity;
  unfold px_line, px_scatter, st_plotly_chart, getitem_year, getitem_date,
    getitem_mask, empty, st_warning;
  repeat step; rewrite ?clean_year_column; repeat step;
  rewrite ?mask_year, ?mask_year_month; cbn [heap trace];
  try match goal with
  | |- context [selected_rows env d ?a ?b] =>
      destruct (selected_rows env d a b) eqn:Hrows;
      cbn [negb]; [reflexivity|]
  end;
  repeat step; finish_present.
Qed.


(** ** Stories *)

Lemma append_assoc (s1 s2 s3 : string) :
  (s1 +:+ s2) +:+ s3 = s1 +:+ (s2 +:+ s3).
Proof.
  induction s1 as [|c s1 IH]; [done|].
  change (String c ((s1 +:+ s2) +:+ s3) = String c (s1 +:+ (s2 +:+ s3))).
  f_equal. exact IH.
Qed.

Lemma datetime_2000 m :
  1 ≤ m ≤ 12 → datetime 2000 m 1 = Ret (mkTimestamp 2000 m 1).
Proof.
  intros Hm. unfold datetime.
  assert (c_int m = true) as ->.
  { unfold c_int. apply andb_true_iff. split; [apply Z.leb_le|apply Z.ltb_lt]; lia. }
  cbn [c_int andb negb].
  change (c_int 2000) with true. change (c_int 1) with true. cbn [andb negb].
  assert ((1 <=? days_in_month 2000 m) = true) as ->.
  { apply Z.leb_le. unfold days_in_month.
    destruct (m =? 2); [destruct (is_leap 2000); lia|].
    destruct ((m =? 4) || (m =? 6) || (m =? 9) || (m =? 11)); lia. }
  assert ((1 <=? m) = true) as -> by (apply Z.leb_le; lia).
  assert ((m <=? 12) = true) as -> by (apply Z.leb_le; lia).
  reflexivity.
Qed.

Ltac story_unfold :=
  unfold story_for_count, run, generate_story, len;
  rewrite bind_assoc;
  erewrite bind_deref by reflexivity;
  rewrite bind_ret, length_replicate;
  fold (story_label).

Lemma story_none n gas y m ct :
  truthy y = false →
  story_for_count n gas y m ct =
  Ret ("The " +:+ story_label ct +:+ " covers the full dataset with "
       +:+ str_int (Z.of_nat n) +:+ " records for " +:+ upper gas +:+ ". "
       +:+ "This chart provides a comprehensive overview of {gas_name} concentrations over the entire recorded "
       +:+ "period, allowing us to observe both seasonal and longer-term trends.").
Proof. intros Hy. story_unfold. rewrite Hy. reflexivity. Qed.

Lemma story_year n gas y m ct :
  truthy y = true → truthy m = false →
  story_for_count n gas y m ct =
  Ret ("The " +:+ story_label ct +:+ " highlights the " +:+ upper gas
       +:+ " levels recorded in " +:+ fmt y +:+ ". "
       +:+ "There are " +:+ str_int (Z.of_nat n)
       +:+ " data points representing " +:+ upper gas
       +:+ " concentration changes over the year. "
       +:+ "This visualization captures the yearly fluctuation and trends in gas concentration.").
Proof. intros Hy Hm. story_unfold. rewrite Hy, Hm. reflexivity. Qed.

Lemma story_month n gas y m ct :
  truthy y = true → 1 ≤ m ≤ 12 →
  story_for_count n gas y (Some m) ct =
  Ret ("The " +:+ story_label ct +:+ " represents the concentration of "
       +:+ upper gas +:+ " during "
       +:+ strftime_B (mkTimestamp 2000 m 1) +:+ " " +:+ fmt y
       +:+ ". The dataset contains "
       +:+ str_int (Z.of_nat n)
       +:+ " data points for this time period, showing how the concentration of "
       +:+ upper gas +:+ " "
       +:+ "varied across this month.").
Proof.
  intros Hy Hm. story_unfold. rewrite Hy.
  assert (truthy (Some m) = true) as ->.
  { unfold truthy. apply negb_true_iff, Z.eqb_neq. lia. }
  cbn [andb int_arg default]. rewrite datetime_2000 by done.
  reflexivity.
Qed.

Lemma story_defined n gas y m ct :
  (∀ m', m = Some m' → 1 ≤ m' ≤ 12) →
  ∃ s pre post,
    story_for_count n gas y m ct = Ret s ∧
    s = pre +:+ count_phrase y m n +:+ post.
Proof.
  intros Hm. unfold count_phrase.
  destruct (truthy y) eqn:Hy; [destruct m as [m|]|].
  - rewrite story_month by auto.
    assert (truthy (Some m) = true) as ->.
    { unfold truthy. apply negb_true_iff, Z.eqb_neq. specialize (Hm m eq_refl). lia. }
    cbn [andb].
    eexists _,
      ("The " +:+ story_label ct +:+ " represents the concentration of "
       +:+ upper gas +:+ " during " +:+ strftime_B (mkTimestamp 2000 m 1)
       +:+ " " +:+ fmt y +:+ ". "),
      (", showing how the concentration of " +:+ upper gas
       +:+ " varied across this month.").
    split; [reflexivity|]. rewrite !append_assoc. reflexivity.
  - rewrite story_year by auto. cbn [truthy andb].
    eexists _,
      ("The " +:+ story_label ct +:+ " highlights the " +:+ upper gas
       +:+ " levels recorded in " +:+ fmt y +:+ ". "),
      (upper gas +:+ " concentration changes over the year. "
       +:+ "This visualization captures the yearly fluctuation and trends in gas concentration.").
    split; [reflexivity|]. rewrite !append_assoc. reflexivity.
  - rewrite story_none by auto. cbn [andb].
    eexists _, ("The " +:+ story_label ct +:+ " "),
      (upper gas +:+ ". "
       +:+ "This chart provides a comprehensive overview of {gas_name} concentrations over the entire recorded "
       +:+ "period, allowing us to observe both seasonal and longer-term trends.").
    split; [reflexivity|]. rewrite !append_assoc. reflexivity.
Qed.



(** ** Which rows a selection keeps *)

Lemma elem_of_selected_rows (d : list Row) y m r' :
  (y = None → m = None) →
  r' ∈ selected_rows env d y m ↔
  ∃ r t, r ∈ d ∧ parsed env (date <$> d) r = Some t ∧
         (∀ y', y = Some y' → ts_year t = y') ∧
         (∀ m', m = Some m' → ts_month t = m') ∧
         r' = cleaned_row r t.
Proof.
  intros Hv. unfold selected_rows, clean. destruct y as [y|].
  - rewrite list_elem_of_omap. split.
    + intros (r & Hr & Hf). destruct (parsed env _ r) as [t|] eqn:Ht; [|done].
      cbn in Hf. destruct (in_selection y m t) eqn:Hs; [|done].
      injection Hf as <-. exists r, t. unfold in_selection in Hs.
      apply andb_true_iff in Hs as [Hy Hm]. apply Z.eqb_eq in Hy.
      repeat split; try done.
      * intros y' [= <-]. done.
      * intros m' ->. by apply Z.eqb_eq in Hm.
    + intros (r & t & Hr & Ht & Hy & Hm & ->). exists r. split; [done|].
      rewrite Ht. cbn. unfold in_selection.
      rewrite (Hy y eq_refl), Z.eqb_refl. cbn.
      destruct m as [m|]; [|done]. by rewrite (Hm m eq_refl), Z.eqb_refl.
  - rewrite (Hv eq_refl), list_elem_of_omap. split.
    + intros (r & Hr & Hf). destruct (parsed env _ r) as [t|] eqn:Ht; [|done].
      injection Hf as <-. exists r, t. repeat split; done.
    + intros (r & t & Hr & Ht & _ & _ & ->). exists r. by rewrite Ht.
Qed.

Lemma selected_rows_of_clean (d : list Row) y m :
  selected_rows env d (Some y) m =
  omap (λ r, match date r with
             | CTs t => if in_selection y m t then Some r else None
             | _ => None
             end) (clean env d).
Proof.
  unfold selected_rows, clean. generalize (date <$> d) as col. intros col.
  induction d as [|r d IH]; [done|].
  cbn [omap list_omap]. destruct (parsed env col r) as [t|]; [|done].
  cbn. destruct (in_selection y m t); [f_equal|]; apply IH.
Qed.

(** Cleaning a cleaned table changes nothing. *)
Lemma clean_idemp (d : list Row) : clean env (clean env d) = clean env d.
Proof.
  unfold clean at 1. generalize (date <$> clean env d) as col'. intros col'.
  unfold clean. generalize (date <$> d) as col. intros col.
  induction d as [|r d IH]; [done|].
  cbn [omap list_omap]. destruct (parsed env col r) as [t|]; [|done].
  cbn. f_equal. apply IH.
Qed.


Lemma present_inv p fig gas y m σ :
  ∃ evs o,
    present p fig gas y m σ = (mkState (heap σ) (trace σ ++ evs), o) ∧
    ((∃ e, evs = [StPlotlyChart fig true] ∧ o = Raise e) ∨
     (∃ s, evs = [StPlotlyChart fig true; StWrite s] ∧ o = Ret tt ∧
           story_for_count (length (fig_data fig)) gas y m
             (Some (chart_type p)) = Ret s)).
Proof.
  unfold present.
  destruct (story_for_count _ gas y m _) as [s|e]; eexists _, _;
    (split; [reflexivity|]); [right|left]; eauto.
Qed.

Lemma present_defined p fig gas y m σ :
  (∀ m', m = Some m' → 1 ≤ m' ≤ 12) →
  ∃ s pre post,
    present p fig gas y m σ =
      (mkState (heap σ) (trace σ ++ [StPlotlyChart fig true; StWrite s]),
       Ret tt) ∧
    story_for_count (length (fig_data fig)) gas y m (Some (chart_type p))
      = Ret s ∧
    s = pre +:+ count_phrase y m (length (fig_data fig)) +:+ post.
Proof.
  intros Hm. unfold present.
  destruct (story_defined (length (fig_data fig)) gas y m
              (Some (chart_type p)) Hm) as (s & pre & post & -> & Hs).
  by exists s, pre, post.
Qed.


Lemma present_heap p fig gas y m σ :
  heap (fst (present p fig gas y m σ)) = heap σ.
Proof. unfold present. by destruct (story_for_count _ _ _ _ _). Qed.

Lemma draw_heap p σ df d gas y m :
  heap σ !! df = Some d →
  heap (fst (run (draw env p df gas y m) σ)) =
  match y with
  | Some _ => <[df := clean env d]> (heap σ) ++ [selected_rows env d y m]
  | None => <[df := clean env d]> (heap σ)
  end.
Proof.
  intros H. rewrite (draw_run p σ df d) by done. unfold draw_result. cbv zeta.
  destruct y as [y|], m as [m|]; try done;
    try (destruct (selected_rows env d _ _) eqn:Hrows; [done|]);
    by rewrite present_heap.
Qed.

Lemma draw_cleans p σ df d gas y m :
  heap σ !! df = Some d →
  heap (fst (run (draw env p df gas y m) σ)) !! df = Some (clean env d).
Proof.
  intros H. rewrite (draw_heap p σ df d) by done.
  destruct y; [rewrite lookup_app_l by
    (rewrite length_insert; by eapply lookup_lt_Some)|];
    by eapply lookup_inserted.
Qed.

Lemma draw_total p σ df d gas y m :
  heap σ !! df = Some d →
  (∀ m', m = Some m' → 1 ≤ m' ≤ 12) →
  snd (run (draw env p df gas y m) σ) = Ret tt.
Proof.
  intros H Hm. rewrite (draw_run p σ df d) by done. unfold draw_result. cbv zeta.
  destruct y as [y|].
  - destruct (selected_rows env d (Some y) m) as [|r rows]; [done|].
    edestruct present_defined as (s & pre & post & -> & _); [exact Hm|done].
  - destruct m as [m|]; [done|].
    edestruct present_defined as (s & pre & post & -> & _); [|done]. done.
Qed.

(** ** The orchestrator *)

Lemma bind_selectbox {A B} lbl (options : list A) v0 (k : A → M B) σ :
  head options = Some v0 →
  (st_selectbox env lbl options ≫= k) σ =
  k (default v0 (options !! pick env lbl))
    (mkState (heap σ) (trace σ ++ [StSelectbox lbl])).
Proof.
  intros Hhd. unfold st_selectbox. rewrite bind_assoc, bind_emit.
  destruct (options !! pick env lbl); [done|]. by rewrite Hhd.
Qed.

Lemma bind_select_gas {B} (k : string → M B) σ :
  (select_gas env ≫= k) σ =
  k (chosen_gas env) (mkState (heap σ) (trace σ ++ [StSelectbox "Select Gas"])).
Proof.
  unfold select_gas. rewrite bind_assoc.
  by erewrite bind_selectbox by reflexivity.
Qed.

Lemma bind_select_year {B} (k : option Z → M B) σ :
  (select_year env ≫= k) σ =
  k (chosen_year env) (mkState (heap σ) (trace σ ++ [StSelectbox "Select Year"])).
Proof.
  unfold select_year. rewrite bind_assoc.
  by erewrite bind_selectbox by reflexivity.
Qed.

Lemma bind_select_month {B} (k : option Z → M B) σ :
  (select_month env ≫= k) σ =
  k (chosen_month env) (mkState (heap σ) (trace σ ++ [StSelectbox "Select Month"])).
Proof.
  unfold select_month. rewrite bind_assoc.
  by erewrite bind_selectbox by reflexivity.
Qed.

Lemma chosen_month_range :
  chosen_month env = None ∨ ∃ m, chosen_month env = Some m ∧ 1 ≤ m ≤ 12.
Proof.
  unfold chosen_month.
  destruct (month_dict !! _) as [m|] eqn:Hm; [right|by left].
  exists m. split; [done|].
  unfold month_dict in Hm. apply elem_of_list_to_map_2 in Hm.
  repeat (apply elem_of_cons in Hm as [Heq|Hm];
          [apply (f_equal snd) in Heq; cbn in Heq; lia|]).
  by apply elem_of_nil in Hm.
Qed.

Lemma get_data_source_missing gas σ :
  gas ≠ "select gas" →
  files env !! ("data/" +:+ gas +:+ ".csv") = None →
  get_data_source env gas σ =
  (mkState (heap σ)
     (trace σ ++ [OpenFile ("data/" +:+ gas +:+ ".csv");
                  StError ("No file found for " +:+ gas)]),
   Ret None).
Proof.
  intros Hgas Hfile. unfold get_data_source.
  destruct (decide (gas = "select gas")) as [|_]; [done|].
  unfold try_except, data_reader. rewrite bind_assoc, bind_emit, Hfile.
  cbv [mbind M_bind raise st_error emit mret M_ret heap trace].
  by rewrite <- app_assoc.
Qed.

(** The placeholder is answered without a look at the files. *)
Lemma get_data_source_placeholder σ :
  get_data_source env "select gas" σ = (σ, Ret None).
Proof. reflexivity. Qed.

Lemma get_data_source_found gas d σ :
  gas ≠ "select gas" →
  files env !! ("data/" +:+ gas +:+ ".csv") = Some d →
  get_data_source env gas σ =
  (mkState (heap σ ++ [d])
     (trace σ ++ [OpenFile ("data/" +:+ gas +:+ ".csv")]),
   Ret (Some (length (heap σ)))).
Proof.
  intros Hgas Hfile. unfold get_data_source.
  destruct (decide (gas = "select gas")) as [|_]; [done|].
  unfold try_except, data_reader. rewrite bind_assoc, bind_emit, Hfile.
  reflexivity.
Qed.

Lemma main_header {B} (k : string → option Z → option Z → M B) σ :
  (st_title "Atmospheric Gases Concentration Dashboard";;
   selected_gas ← select_gas env;
   selected_year ← select_year env;
   selected_month ← select_month env;
   k selected_gas selected_year selected_month) σ
  = k (chosen_gas env) (chosen_year env) (chosen_month env)
      (mkState (heap σ) (trace σ ++ header)).
Proof.
  unfold st_title. rewrite bind_emit, bind_select_gas, bind_select_year,
    bind_select_month. cbn [heap trace]. by rewrite <- !app_assoc.
Qed.


Lemma select_gas_result σ : snd (run (select_gas env) σ) = Ret (chosen_gas env).
Proof.
  unfold run. pose proof (bind_select_gas (λ g, mret g) σ) as Hb.
  unfold mbind, M_bind in Hb.
  destruct (select_gas env σ) as [σ' [g|e]]; by inversion Hb.
Qed.

Lemma main_run σ :
  run (main env) σ =
  let σ0 := mkState (heap σ) (trace σ ++ header) in
  let gas := chosen_gas env in
  let path := "data/" +:+ gas +:+ ".csv" in
  if decide (gas = "select gas") then
    (mkState (heap σ) (trace σ0 ++ [StInfo "Please select a gas to start."]),
     Ret tt)
  else
    match files env !! path with
    | None =>
        (mkState (heap σ)
           (trace σ0 ++ [OpenFile path; StError ("No file found for " +:+ gas)]),
         Ret tt)
    | Some d =>
        let df := length (heap σ) in
        (draw env TimeSeries df gas (chosen_year env) (chosen_month env);;
         draw env ScatterPlot df gas (chosen_year env) (chosen_month env);;
         draw env StdScatter df gas (chosen_year env) (chosen_month env))
          (mkState (heap σ ++ [d]) (trace σ0 ++ [OpenFile path]))
    end.
Proof.
  unfold run, main. rewrite main_header. cbv zeta.
  destruct (decide (chosen_gas env = "select gas")) as [Hg|Hg]; [done|].
  destruct (files env !! _) as [d|] eqn:Hfile.
  - unfold mbind at 1, M_bind at 1.
    by rewrite (get_data_source_found _ d) by done.
  - unfold mbind at 1, M_bind at 1.
    by rewrite get_data_source_missing by done.
Qed.

Lemma main_total σ : snd (run (main env) σ) = Ret tt.
Proof.
  rewrite main_run. cbv zeta.
  destruct (decide _); [done|]. destruct (files env !! _) as [d|]; [|done].
  assert (Hm : ∀ m', chosen_month env = Some m' → 1 ≤ m' ≤ 12).
  { intros m' Hm'. destruct chosen_month_range as [Hn|(m & Hs & Hr)]; congruence. }
  set (gas := chosen_gas env). set (y := chosen_year env).
  set (m := chosen_month env) in *.
  set (σ1 := mkState (heap σ ++ [d]) _).
  assert (H1 : heap σ1 !! length (heap σ) = Some d) by apply lookup_new.
  pose proof (draw_total TimeSeries σ1 _ d gas y m H1 Hm) as T1.
  pose proof (draw_cleans TimeSeries σ1 _ d gas y m H1) as H2.
  unfold run in *. unfold mbind, M_bind.
  destruct (draw env TimeSeries _ gas y m σ1) as [σ2 o2]. cbn in T1, H2. subst o2.
  pose proof (draw_total ScatterPlot σ2 _ _ gas y m H2 Hm) as T2.
  pose proof (draw_cleans ScatterPlot σ2 _ _ gas y m H2) as H3.
  unfold run in *.
  destruct (draw env ScatterPlot _ gas y m σ2) as [σ3 o3]. cbn in T2, H3. subst o3.
  exact (draw_total StdScatter σ3 _ _ gas y m H3 Hm).
Qed.


Lemma select_year_result σ : snd (run (select_year env) σ) = Ret (chosen_year env).
Proof.
  unfold run. pose proof (bind_select_year (λ g, mret g) σ) as Hb.
  unfold mbind, M_bind in Hb.
  destruct (select_year env σ) as [σ' [g|e]]; by inversion Hb.
Qed.

Lemma select_month_result σ : snd (run (select_month env) σ) = Ret (chosen_month env).
Proof.
  unfold run. pose proof (bind_select_month (λ g, mret g) σ) as Hb.
  unfold mbind, M_bind in Hb.
  destruct (select_month env σ) as [σ' [g|e]]; by inversion Hb.
Qed.

Lemma generate_story_outcome σ df (d : list Row) gas y m ct :
  heap σ !! df = Some d →
  run (generate_story df gas y m ct) σ =
  (σ, story_for_count (length d) gas y m ct).
Proof.
  intros H. pose proof (generate_story_run σ df d gas y m ct (λ s, mret s) H) as Hb.
  unfold mbind, M_bind in Hb. unfold run.
  destruct (generate_story df gas y m ct σ) as [σ' [s|e]];
    destruct (story_for_count _ _ _ _ _); by inversion Hb.
Qed.

(** Out of the calendar, within a C int: the month name is refused. *)
Lemma datetime_2000_outside m :
  - 2 ^ 31 ≤ m < 2 ^ 31 → ¬ (1 ≤ m ≤ 12) →
  datetime 2000 m 1 = Raise ValueError.
Proof.
  intros Hc Hm. unfold datetime.
  assert (c_int m = true) as ->.
  { unfold c_int. apply andb_true_iff. split; [apply Z.leb_le|apply Z.ltb_lt]; lia. }
  change (c_int 2000) with true. change (c_int 1) with true. cbn [andb negb].
  destruct (Z.leb_spec 1 m), (Z.leb_spec m 12); try lia;
    by rewrite ?andb_false_r.
Qed.

Lemma story_outside n gas y m ct :
  truthy y = true → m ≠ 0 → - 2 ^ 31 ≤ m < 2 ^ 31 → ¬ (1 ≤ m ≤ 12) →
  story_for_count n gas y (Some m) ct = Raise ValueError.
Proof.
  intros Hy Hm0 Hc Hm. unfold story_for_count, run, generate_story, len.
  rewrite bind_assoc. erewrite bind_deref by reflexivity. rewrite bind_ret.
  rewrite Hy.
  assert (truthy (Some m) = true) as ->.
  { unfold truthy. by apply negb_true_iff, Z.eqb_neq. }
  cbn [andb int_arg default]. rewrite datetime_2000_outside by done.
  reflexivity.
Qed.

(** A draw function reaches [generate_story] with its own year and
    month only: the stories it writes and the exception it may end in
    are those of [generate_story] for these two. *)
Lemma draw_story_calls p σ df (d : list Row) gas y m :
  heap σ !! df = Some d →
  ∃ evs,
    trace (fst (run (draw env p df gas y m) σ)) = trace σ ++ evs ∧
    (∀ s, StWrite s ∈ evs →
       ∃ n, story_for_count n gas y m (Some (chart_type p)) = Ret s) ∧
    (∀ e, snd (run (draw env p df gas y m) σ) = Raise e →
       ∃ n, story_for_count n gas y m (Some (chart_type p)) = Raise e).
Proof.
  intros H. rewrite (draw_run p σ df d) by done.
  unfold draw_result. cbv zeta. cbn [heap trace].
  assert (Hp : ∀ fig σ0,
    ∃ evs,
      trace (fst (present p fig gas y m σ0)) = trace σ0 ++ evs ∧
      (∀ s, StWrite s ∈ evs →
         ∃ n, story_for_count n gas y m (Some (chart_type p)) = Ret s) ∧
      (∀ e, snd (present p fig gas y m σ0) = Raise e →
         ∃ n, story_for_count n gas y m (Some (chart_type p)) = Raise e)).
  { intros fig σ0. unfold present.
    destruct (story_for_count (length (fig_data fig)) gas y m _) as [s|e] eqn:Hs;
      eexists; (split; [reflexivity|]); split.
    - intros s' Hin.
      apply elem_of_cons in Hin as [Heq|Hin]; [discriminate Heq|].
      apply list_elem_of_singleton in Hin. injection Hin as ->. eauto.
    - intros e [=].
    - intros s' Hin. apply list_elem_of_singleton in Hin. discriminate Hin.
    - intros e' [= <-]. eauto. }
  destruct y as [y|], m as [m|];
    try (destruct (selected_rows env d _ _) as [|r rows] eqn:Hrows);
    try match goal with
    | |- context [present p ?fig gas ?a ?b ?σ0] =>
        destruct (Hp fig σ0) as (evs & E1 & E2 & E3);
        exists evs; split; [exact E1|split; [exact E2|exact E3]]
    end.
  all: eexists; (split; [cbn [fst trace]; try reflexivity|]).
  all: try (symmetry; apply app_nil_r).
  all: split; [intros s Hin|intros e [=]].
  all: try (apply list_elem_of_singleton in Hin; discriminate Hin).
  all: by apply elem_of_nil in Hin.
Qed.

End Lemmas.

(** * What the specification states *)

(** C1. For every dataset and every valid selection, the rows each of
    the three pipelines works on are exactly the rows whose date parses
    and whose derived year equals the selected year (and, when a month is
    selected, whose month equals the selected month); with no year and
    no month selected it is the full cleaned dataset.  The filtered
    table is the new object of the store, and a chart shows these rows
    and no others. *)
Theorem filtered_rows_exact env p σ df d gas y m :
  heap σ !! df = Some d →
  (y = None → m = None) →
  ∃ σ' o evs,
    run (draw env p df gas y m) σ = (σ', o) ∧
    trace σ' = trace σ ++ evs ∧
    (is_Some y →
       heap σ' !! length (heap σ) = Some (selected_rows env d y m)) ∧
    (∀ fig w, StPlotlyChart fig w ∈ evs →
       fig_data fig = selected_rows env d y m) ∧
    (y = None ∨ selected_rows env d y m ≠ [] →
       ∃ fig, StPlotlyChart fig true ∈ evs) ∧
    (∀ r', r' ∈ selected_rows env d y m ↔
       ∃ r t, r ∈ d ∧ parsed env (date <$> d) r = Some t ∧
              (∀ y', y = Some y' → ts_year t = y') ∧
              (∀ m', m = Some m' → ts_month t = m') ∧
              r' = cleaned_row r t).
Proof.
  intros H Hv. rewrite (draw_run env p σ df d) by done.
  assert (Hlen : length (<[df := clean env d]> (heap σ)) = length (heap σ))
    by apply length_insert.
  assert (Hchart : ∀ (fig fig' : Figure) w l,
            StPlotlyChart fig' w ∈ StPlotlyChart fig true :: l →
            Forall (λ e, is_chart e = false) l → fig' = fig).
  { intros fig fig' w l Hin Hl. apply elem_of_cons in Hin as [[= -> _]|Hin]; [done|].
    rewrite Forall_forall in Hl. by specialize (Hl _ Hin). }
  pose proof (λ r', elem_of_selected_rows env d y m r' Hv) as Hmem.
  unfold draw_result. cbv zeta. cbn [heap trace].
  destruct y as [y|]; [|rewrite (Hv eq_refl) in *].
  - destruct (selected_rows env d (Some y) m) as [|r rows] eqn:Hrows.
    + eexists _, _, _. split; [reflexivity|]. cbn [heap trace].
      split; [reflexivity|].
      split; [intros _; rewrite <- Hlen; apply lookup_new|].
      split; [intros fig w Hin; apply list_elem_of_singleton in Hin; done|].
      split; [intros [|Hne]; done|]. done.
    + destruct (present_inv p (figure p (Some y) m (r :: rows)) gas (Some y) m
                  (mkState (<[df := clean env d]> (heap σ) ++ [r :: rows]) (trace σ)))
        as (evs & o & Hp & Hevs).
      eexists _, _, evs. split; [exact Hp|]. cbn [heap trace].
      split; [reflexivity|].
      split; [intros _; rewrite <- Hlen; apply lookup_new|].
      split; [|split; [|done]].
      * intros fig w Hin.
        destruct Hevs as [(e & -> & _)|(s & -> & _)];
          apply Hchart in Hin as ->; repeat constructor.
      * intros _. eexists.
        destruct Hevs as [(e & -> & _)|(s & -> & _)]; apply list_elem_of_here.
  - destruct (present_inv p (figure p None None (clean env d)) gas None None
                (mkState (<[df := clean env d]> (heap σ)) (trace σ)))
      as (evs & o & Hp & Hevs).
    eexists _, _, evs. split; [exact Hp|]. cbn [heap trace].
    split; [reflexivity|].
    split; [intros [? [=]]|].
    split; [|split; [|done]].
    + intros fig w Hin.
      destruct Hevs as [(e & -> & _)|(s & -> & _)];
        apply Hchart in Hin as ->; repeat constructor.
    + intros _. eexists.
      destruct Hevs as [(e & -> & _)|(s & -> & _)]; apply list_elem_of_here.
Qed.

(** C2. For every selection that leaves a pipeline with a non-empty row
    set, the pipeline draws one chart and writes one story, and the row
    count in the story is the number of rows handed to the chart
    renderer: the story is the sentence [generate_story] returns for a
    table of as many rows as the figure holds, with that number inside
    the counting phrase. *)
Theorem story_counts_charted_rows env p σ df d gas y m :
  heap σ !! df = Some d →
  (y = None → m = None) →
  (∀ m', m = Some m' → 1 ≤ m' ≤ 12) →
  selected_rows env d y m ≠ [] →
  ∃ σ' fig story pre post,
    run (draw env p df gas y m) σ = (σ', Ret tt) ∧
    trace σ' = trace σ ++ [StPlotlyChart fig true; StWrite story] ∧
    fig_data fig = selected_rows env d y m ∧
    story_for_count (length (fig_data fig)) gas y m (Some (chart_type p))
      = Ret story ∧
    story = pre +:+ count_phrase y m (length (fig_data fig)) +:+ post.
Proof.
  intros H Hv Hm Hne. rewrite (draw_run env p σ df d) by done.
  unfold draw_result. cbv zeta. cbn [heap trace].
  destruct y as [y|]; [|rewrite (Hv eq_refl) in *].
  - destruct (selected_rows env d (Some y) m) as [|r rows] eqn:Hrows; [done|].
    destruct (present_defined p (figure p (Some y) m (r :: rows)) gas (Some y) m
                (mkState (<[df := clean env d]> (heap σ) ++ [r :: rows]) (trace σ)) Hm)
      as (s & pre & post & Hp & Hs & Hc).
    eexists _, _, s, pre, post. split; [exact Hp|]. by repeat split.
  - destruct (present_defined p (figure p None None (clean env d)) gas None None
                (mkState (<[df := clean env d]> (heap σ)) (trace σ)) Hm)
      as (s & pre & post & Hp & Hs & Hc).
    eexists _, _, s, pre, post. split; [exact Hp|]. by repeat split.
Qed.

(** C3. In every pipeline, when the selected year (with or without a
    selected month) matches no row of the cleaned dataset, the run adds
    one warning to the page and nothing else: no chart, no story. *)
Theorem empty_selection_warns env p σ df d gas y m :
  heap σ !! df = Some d →
  selected_rows env d (Some y) m = [] →
  ∃ σ',
    run (draw env p df gas (Some y) m) σ = (σ', Ret tt) ∧
    trace σ' =
      trace σ ++
      [StWarning
         match m with
         | None => "No data available for the selected year."
         | Some _ => "No data available for the selected month and year."
         end].
Proof.
  intros H Hrows. rewrite (draw_run env p σ df d) by done.
  unfold draw_result. cbv zeta. rewrite Hrows.
  eexists. split; [reflexivity|]. by destruct m.
Qed.

(** C4. In the branch with both a year and a month, the line-chart
    pipeline puts [std CO2] on the y-axis, the scatter pipeline
    [Alt_Mean] and the std-scatter pipeline [std CO2]; with a year
    alone the line chart and the scatter plot show [Alt_Mean] and the
    std-scatter plot [std CO2]. *)
Theorem y_axis_per_branch env p σ df d gas y m :
  heap σ !! df = Some d →
  selected_rows env d (Some y) m ≠ [] →
  ∃ σ' o fig evs,
    run (draw env p df gas (Some y) m) σ = (σ', o) ∧
    trace σ' = trace σ ++ StPlotlyChart fig true :: evs ∧
    Forall (λ e, is_chart e = false) evs ∧
    fig_y fig =
      match p, m with
      | TimeSeries, Some _ => "std CO2"
      | TimeSeries, None => "Alt_Mean"
      | ScatterPlot, _ => "Alt_Mean"
      | StdScatter, _ => "std CO2"
      end.
Proof.
  intros H Hne. rewrite (draw_run env p σ df d) by done.
  unfold draw_result. cbv zeta. cbn [heap trace].
  destruct (selected_rows env d (Some y) m) as [|r rows] eqn:Hrows; [done|].
  destruct (present_inv p (figure p (Some y) m (r :: rows)) gas (Some y) m
              (mkState (<[df := clean env d]> (heap σ) ++ [r :: rows]) (trace σ)))
    as (evs & o & Hp & Hevs).
  destruct Hevs as [(e & -> & _)|(s & -> & _)];
    eexists _, _, _, _; (split; [exact Hp|]); cbn [trace];
    (split; [reflexivity|]); (split; [repeat constructor|]);
    by destruct p, m.
Qed.

(** C8. With year and month both absent the story is two sentences:
    the first holds the label of the chart, the row count and the gas
    name in upper case; the second is a fixed text in which the
    characters [{gas_name}] stand where the gas name was meant to be. *)
Theorem no_filter_story_text σ df d gas ct :
  heap σ !! df = Some d →
  run (generate_story df gas None None ct) σ =
  (σ,
   Ret (("The " +:+ story_label ct +:+ " covers the full dataset with "
         +:+ str_int (Z.of_nat (length d)) +:+ " records for "
         +:+ upper gas +:+ ". ")
        +:+ "This chart provides a comprehensive overview of {gas_name} concentrations over the entire recorded period, allowing us to observe both seasonal and longer-term trends.")).
Proof.
  intros H. unfold run, generate_story, len.
  rewrite bind_assoc, (bind_deref df d), bind_ret by done.
  cbn [truthy andb]. fold (story_label ct).
  rewrite !append_assoc. reflexivity.
Qed.

(** C9. With a month selected and no year, none of the three branch
    conditions holds: the pipeline cleans the table and writes nothing
    to the page, neither chart nor story nor message. *)
Theorem month_only_is_silent env p σ df d gas m :
  heap σ !! df = Some d →
  run (draw env p df gas None (Some m)) σ =
  (mkState (<[df := clean env d]> (heap σ)) (trace σ), Ret tt).
Proof. intros H. by rewrite (draw_run env p σ df d). Qed.

(** C5. With the gas selection left at the placeholder, [main] draws
    the title and the three drop-downs, writes the one informational
    message and returns: no file is opened, no table enters the store,
    and no pipeline adds anything to the page. *)
Theorem placeholder_gas_stops env σ :
  pick env "Select Gas" = 0%nat →
  run (main env) σ =
  (mkState (heap σ)
     (trace σ ++
      [StTitle "Atmospheric Gases Concentration Dashboard";
       StSelectbox "Select Gas"; StSelectbox "Select Year";
       StSelectbox "Select Month";
       StInfo "Please select a gas to start."]),
   Ret tt).
Proof.
  intros Hpick. rewrite main_run. cbv zeta.
  assert (chosen_gas env = "select gas") as ->.
  { unfold chosen_gas. by rewrite Hpick. }
  destruct (decide _) as [_|Hne]; [|done].
  cbn [trace]. by rewrite <- app_assoc.
Qed.

(** C6. For every gas name (a selection other than the placeholder,
    which both functions answer on their own) whose file
    [data/<gas>.csv] does not exist, [get_data_source] asks the loader
    for that path, writes the error message that names the gas and
    returns no dataset; and a run of [main] in which this gas is
    selected ends there, with no chart, story or warning of any
    pipeline. *)
Theorem missing_file_reported env σ gas :
  gas ≠ "select gas" →
  files env !! ("data/" +:+ gas +:+ ".csv") = None →
  run (get_data_source env gas) σ =
    (mkState (heap σ)
       (trace σ ++ [OpenFile ("data/" +:+ gas +:+ ".csv");
                    StError ("No file found for " +:+ gas)]),
     Ret None)
  ∧ (snd (run (select_gas env) σ) = Ret gas →
     run (main env) σ =
       (mkState (heap σ)
          (trace σ ++
           [StTitle "Atmospheric Gases Concentration Dashboard";
            StSelectbox "Select Gas"; StSelectbox "Select Year";
            StSelectbox "Select Month";
            OpenFile ("data/" +:+ gas +:+ ".csv");
            StError ("No file found for " +:+ gas)]),
        Ret tt)).
Proof.
  intros Hgas Hfile. split; [by apply get_data_source_missing|].
  rewrite select_gas_result. intros [= Hsel]. rewrite main_run. cbv zeta.
  rewrite Hsel, Hfile. destruct (decide _) as [|_]; [done|].
  cbn [trace]. by rewrite <- app_assoc.
Qed.

(** C7. The month name in a story is defined for every month from 1 to
    12 and is the English name of that month: with a year and such a
    month [generate_story] returns the sentence that holds this name.
    For a non-zero month outside 1 to 12 the derivation raises instead
    of naming a month.  It is never reached that way: the month
    drop-down yields nothing or a month from 1 to 12, [main] hands
    exactly that value to the three draw functions, and a draw function
    calls [generate_story] with the month it was given and no other. *)
Theorem month_name_total_and_in_range env σ :
  (∀ df d gas y m ct,
     heap σ !! df = Some d → y ≠ 0 → printable y → 1 ≤ m ≤ 12 →
     ∃ name,
       ["January"; "February"; "March"; "April"; "May"; "June"; "July";
        "August"; "September"; "October"; "November"; "December"]
         !! Z.to_nat (m - 1) = Some name ∧
       run (generate_story df gas (Some y) (Some m) ct) σ =
       (σ,
        Ret ("The " +:+ story_label ct +:+ " represents the concentration of "
             +:+ upper gas +:+ " during " +:+ name +:+ " " +:+ str_int y
             +:+ ". The dataset contains " +:+ str_int (Z.of_nat (length d))
             +:+ " data points for this time period, showing how the concentration of "
             +:+ upper gas +:+ " varied across this month."))) ∧
  (∀ df d gas y m ct,
     heap σ !! df = Some d → y ≠ 0 → m ≠ 0 → - 2 ^ 31 ≤ m < 2 ^ 31 →
     ¬ (1 ≤ m ≤ 12) →
     run (generate_story df gas (Some y) (Some m) ct) σ = (σ, Raise ValueError)) ∧
  (∃ y m,
     snd (run (select_year env) σ) = Ret y ∧
     run (select_month env) σ =
       (mkState (heap σ) (trace σ ++ [StSelectbox "Select Month"]), Ret m) ∧
     (m = None ∨ ∃ m', m = Some m' ∧ 1 ≤ m' ≤ 12) ∧
     ∀ d,
       snd (run (select_gas env) σ) = Ret "co2" →
       files env !! "data/co2.csv" = Some d →
       run (main env) σ =
       run (draw env TimeSeries (length (heap σ)) "co2" y m;;
            draw env ScatterPlot (length (heap σ)) "co2" y m;;
            draw env StdScatter (length (heap σ)) "co2" y m)
           (mkState (heap σ ++ [d])
              (trace σ ++
               [StTitle "Atmospheric Gases Concentration Dashboard";
                StSelectbox "Select Gas"; StSelectbox "Select Year";
                StSelectbox "Select Month"; OpenFile "data/co2.csv"]))) ∧
  (∀ p σ0 df d gas y m,
     heap σ0 !! df = Some d →
     ∃ evs,
       trace (fst (run (draw env p df gas y m) σ0)) = trace σ0 ++ evs ∧
       (∀ s, StWrite s ∈ evs →
          ∃ n, story_for_count n gas y m (Some (chart_type p)) = Ret s) ∧
       (∀ e, snd (run (draw env p df gas y m) σ0) = Raise e →
          ∃ n, story_for_count n gas y m (Some (chart_type p)) = Raise e)).
Proof.
  split; [|split; [|split]].
  - intros df d gas y m ct H Hy _ Hm.
    exists (strftime_B (mkTimestamp 2000 m 1)). split.
    + unfold strftime_B, month_names. cbn [ts_month].
      assert (∃ i : nat, (i < 12)%nat ∧ Z.to_nat (m - 1) = i) as (i & Hi & ->)
        by (exists (Z.to_nat (m - 1)); lia).
      do 12 (destruct i as [|i]; [reflexivity|]). lia.
    + rewrite (generate_story_outcome σ df d) by done.
      rewrite story_month; [reflexivity|by apply negb_true_iff, Z.eqb_neq|done].
  - intros df d gas y m ct H Hy Hm0 Hc Hm.
    rewrite (generate_story_outcome σ df d) by done.
    by rewrite story_outside; [| apply negb_true_iff, Z.eqb_neq|..].
  - exists (chosen_year env), (chosen_month env).
    split; [apply select_year_result|]. split; [|split].
    + pose proof (bind_select_month env (λ mo, mret mo) σ) as Hb.
      unfold mbind, M_bind in Hb. unfold run.
      destruct (select_month env σ) as [σ' [mo|e]]; [|done].
      by injection Hb as -> ->.
    + apply chosen_month_range.
    + intros d. rewrite select_gas_result. intros [= Hg] Hfile.
      rewrite main_run. cbv zeta. rewrite Hg.
      destruct (decide _) as [|_]; [done|].
      assert (files env !! ("data/" +:+ "co2" +:+ ".csv") = Some d) as ->
        by exact Hfile.
      unfold run, header. cbn [trace]. by rewrite <- app_assoc.
  - intros p σ0 df d gas y m H. exact (draw_story_calls env p σ0 df d gas y m H).
Qed.


(** * The same on the sample run *)

(** The examples of the specification, evaluated. *)

Example sample_year_2015 :
  trace (fst (run (draw_time_series (sample_env 1 16 0) 0%nat "co2"
                     (Some 2015) None)
                  (loaded sample_csv))) =
  [StPlotlyChart
     (mkFigure Line
        [mkRow 0 (CTs (mkTimestamp 2015 1 1)) (CNum (3985 # 10))
           (CNum (2 # 10)) (Some (CInt 2015));
         mkRow 1 (CTs (mkTimestamp 2015 6 15)) (CNum (4012 # 10))
           (CNum (3 # 10)) (Some (CInt 2015))]
        "date" "Alt_Mean" "Alt_Mean Over Time in 2015")
     true;
   StWrite "The Line Chart highlights the CO2 levels recorded in 2015. There are 2 data points representing CO2 concentration changes over the year. This visualization captures the yearly fluctuation and trends in gas concentration."].
Proof. vm_compute. reflexivity. Qed.

Example sample_no_match :
  trace (fst (run (draw_time_series (sample_env 1 17 3) 0%nat "co2"
                     (Some 2016) (Some 3))
                  (loaded sample_csv))) =
  [StWarning "No data available for the selected month and year."].
Proof. vm_compute. reflexivity. Qed.

Example sample_placeholder :
  trace (fst (run (main (sample_env 0 0 0)) start)) =
  header ++ [StInfo "Please select a gas to start."].
Proof. vm_compute. reflexivity. Qed.

Example sample_missing_file :
  trace (fst (run (main (empty_env 1 0 0)) start)) =
  header ++ [OpenFile "data/co2.csv"; StError "No file found for co2"].
Proof. vm_compute. reflexivity. Qed.

(** CO2, 2016 (position 17 of the year box), Feb (position 2): the
    three stories of a whole run. *)
Example sample_main_stories :
  stories (trace (fst (run (main (sample_env 1 17 2)) start))) =
  ["The Line Chart represents the concentration of CO2 during February 2016. The dataset contains 1 data points for this time period, showing how the concentration of CO2 varied across this month.";
   "The Scatter Plot represents the concentration of CO2 during February 2016. The dataset contains 1 data points for this time period, showing how the concentration of CO2 varied across this month.";
   "The Standard Deviation Scatter Plot represents the concentration of CO2 during February 2016. The dataset contains 1 data points for this time period, showing how the concentration of CO2 varied across this month."].
Proof. vm_compute. reflexivity. Qed.

(** Year 2015 selected, no month: the line chart of the sample table. *)
Lemma filtered_rows_exact_witness :
  heap (loaded sample_csv) !! 0%nat = Some sample_csv ∧
  (Some 2015 = None → @None Z = None) ∧
  ∃ σ' o evs,
    run (draw (sample_env 1 16 0) TimeSeries 0%nat "co2" (Some 2015) None)
        (loaded sample_csv) = (σ', o) ∧
    trace σ' = trace (loaded sample_csv) ++ evs ∧
    (is_Some (Some 2015) →
       heap σ' !! length (heap (loaded sample_csv)) =
       Some (selected_rows (sample_env 1 16 0) sample_csv (Some 2015) None)) ∧
    (∀ fig w, StPlotlyChart fig w ∈ evs →
       fig_data fig =
       selected_rows (sample_env 1 16 0) sample_csv (Some 2015) None) ∧
    (Some 2015 = None ∨
     selected_rows (sample_env 1 16 0) sample_csv (Some 2015) None ≠ [] →
       ∃ fig, StPlotlyChart fig true ∈ evs) ∧
    (∀ r', r' ∈ selected_rows (sample_env 1 16 0) sample_csv (Some 2015) None ↔
       ∃ r t, r ∈ sample_csv ∧
              parsed (sample_env 1 16 0) (date <$> sample_csv) r = Some t ∧
              (∀ y', Some 2015 = Some y' → ts_year t = y') ∧
              (∀ m', None = Some m' → ts_month t = m') ∧
              r' = cleaned_row r t).
Proof.
  split; [reflexivity|]. split; [intros _; reflexivity|].
  apply (filtered_rows_exact (sample_env 1 16 0) TimeSeries
           (loaded sample_csv) 0%nat sample_csv "co2" (Some 2015) None).
  - reflexivity.
  - intros _. reflexivity.
Defined.

(** The spec's example: year 2015 keeps two rows, and the story says 2. *)
Lemma story_counts_charted_rows_witness :
  heap (loaded sample_csv) !! 0%nat = Some sample_csv ∧
  (Some 2015 = None → @None Z = None) ∧
  (∀ m', @None Z = Some m' → 1 ≤ m' ≤ 12) ∧
  selected_rows (sample_env 1 16 0) sample_csv (Some 2015) None ≠ [] ∧
  ∃ σ' fig story pre post,
    run (draw (sample_env 1 16 0) TimeSeries 0%nat "co2" (Some 2015) None)
        (loaded sample_csv) = (σ', Ret tt) ∧
    trace σ' =
      trace (loaded sample_csv) ++ [StPlotlyChart fig true; StWrite story] ∧
    fig_data fig =
      selected_rows (sample_env 1 16 0) sample_csv (Some 2015) None ∧
    story_for_count (length (fig_data fig)) "co2" (Some 2015) None
      (Some (chart_type TimeSeries)) = Ret story ∧
    story = pre +:+ count_phrase (Some 2015) None (length (fig_data fig)) +:+ post.
Proof.
  assert (Hne : selected_rows (sample_env 1 16 0) sample_csv (Some 2015) None ≠ [])
    by (vm_compute; discriminate).
  split; [reflexivity|]. split; [intros _; reflexivity|].
  split; [intros m' Hm'; discriminate Hm'|]. split; [exact Hne|].
  apply (story_counts_charted_rows (sample_env 1 16 0) TimeSeries
           (loaded sample_csv) 0%nat sample_csv "co2" (Some 2015) None).
  - reflexivity.
  - intros _. reflexivity.
  - intros m' Hm'. discriminate Hm'.
  - exact Hne.
Defined.

(** The spec's example: year 2016 with month 3 matches nothing. *)
Lemma empty_selection_warns_witness :
  heap (loaded sample_csv) !! 0%nat = Some sample_csv ∧
  selected_rows (sample_env 1 17 3) sample_csv (Some 2016) (Some 3) = [] ∧
  ∃ σ',
    run (draw (sample_env 1 17 3) ScatterPlot 0%nat "co2" (Some 2016) (Some 3))
        (loaded sample_csv) = (σ', Ret tt) ∧
    trace σ' =
      trace (loaded sample_csv) ++
      [StWarning "No data available for the selected month and year."].
Proof.
  split; [reflexivity|]. split; [vm_compute; reflexivity|].
  apply (empty_selection_warns (sample_env 1 17 3) ScatterPlot
           (loaded sample_csv) 0%nat sample_csv "co2" 2016 (Some 3)).
  - reflexivity.
  - vm_compute. reflexivity.
Defined.

(** February 2016 has a row: the line chart shows [std CO2]. *)
Lemma y_axis_per_branch_witness :
  heap (loaded sample_csv) !! 0%nat = Some sample_csv ∧
  selected_rows (sample_env 1 17 2) sample_csv (Some 2016) (Some 2) ≠ [] ∧
  ∃ σ' o fig evs,
    run (draw (sample_env 1 17 2) TimeSeries 0%nat "co2" (Some 2016) (Some 2))
        (loaded sample_csv) = (σ', o) ∧
    trace σ' = trace (loaded sample_csv) ++ StPlotlyChart fig true :: evs ∧
    Forall (λ e, is_chart e = false) evs ∧
    fig_y fig = "std CO2".
Proof.
  assert (Hne : selected_rows (sample_env 1 17 2) sample_csv (Some 2016) (Some 2) ≠ [])
    by (vm_compute; discriminate).
  split; [reflexivity|]. split; [exact Hne|].
  apply (y_axis_per_branch (sample_env 1 17 2) TimeSeries
           (loaded sample_csv) 0%nat sample_csv "co2" 2016 (Some 2)).
  - reflexivity.
  - exact Hne.
Defined.

Lemma no_filter_story_text_witness :
  heap (loaded sample_csv) !! 0%nat = Some sample_csv ∧
  run (generate_story 0%nat "co2" None None (Some "line")) (loaded sample_csv) =
  (loaded sample_csv,
   Ret ("The Line Chart covers the full dataset with 4 records for CO2. "
        +:+ "This chart provides a comprehensive overview of {gas_name} concentrations over the entire recorded period, allowing us to observe both seasonal and longer-term trends.")).
Proof.
  split; [reflexivity|].
  apply (no_filter_story_text (loaded sample_csv) 0%nat sample_csv "co2"
           (Some "line")).
  reflexivity.
Defined.

Lemma month_only_is_silent_witness :
  heap (loaded sample_csv) !! 0%nat = Some sample_csv ∧
  run (draw (sample_env 1 0 6) StdScatter 0%nat "co2" None (Some 6))
      (loaded sample_csv) =
  (mkState (<[0%nat := clean (sample_env 1 0 6) sample_csv]>
              (heap (loaded sample_csv)))
     (trace (loaded sample_csv)),
   Ret tt).
Proof.
  split; [reflexivity|].
  apply (month_only_is_silent (sample_env 1 0 6) StdScatter
           (loaded sample_csv) 0%nat sample_csv "co2" 6).
  reflexivity.
Defined.

Lemma placeholder_gas_stops_witness :
  pick (sample_env 0 16 3) "Select Gas" = 0%nat ∧
  run (main (sample_env 0 16 3)) start =
  (mkState (heap start)
     (trace start ++
      [StTitle "Atmospheric Gases Concentration Dashboard";
       StSelectbox "Select Gas"; StSelectbox "Select Year";
       StSelectbox "Select Month";
       StInfo "Please select a gas to start."]),
   Ret tt).
Proof.
  split; [reflexivity|].
  apply (placeholder_gas_stops (sample_env 0 16 3) start). reflexivity.
Defined.

Lemma missing_file_reported_witness :
  "co2" ≠ "select gas" ∧
  files (empty_env 1 16 0) !! ("data/" +:+ "co2" +:+ ".csv") = None ∧
  snd (run (select_gas (empty_env 1 16 0)) start) = Ret "co2" ∧
  run (get_data_source (empty_env 1 16 0) "co2") start =
    (mkState (heap start)
       (trace start ++ [OpenFile ("data/" +:+ "co2" +:+ ".csv");
                        StError ("No file found for " +:+ "co2")]),
     Ret None) ∧
  run (main (empty_env 1 16 0)) start =
    (mkState (heap start)
       (trace start ++
        [StTitle "Atmospheric Gases Concentration Dashboard";
         StSelectbox "Select Gas"; StSelectbox "Select Year";
         StSelectbox "Select Month";
         OpenFile ("data/" +:+ "co2" +:+ ".csv");
         StError ("No file found for " +:+ "co2")]),
     Ret tt).
Proof.
  assert (Hgas : "co2" ≠ "select gas") by discriminate.
  assert (Hfile : files (empty_env 1 16 0) !! ("data/" +:+ "co2" +:+ ".csv") = None)
    by (vm_compute; reflexivity).
  assert (Hsel : snd (run (select_gas (empty_env 1 16 0)) start) = Ret "co2")
    by (vm_compute; reflexivity).
  destruct (missing_file_reported (empty_env 1 16 0) start "co2" Hgas Hfile)
    as [Hget Hmain].
  split; [exact Hgas|]. split; [exact Hfile|]. split; [exact Hsel|].
  split; [exact Hget|]. exact (Hmain Hsel).
Defined.

(** March 2015 on the sample table, month 13, and the run of [main]
    with CO2, 2015 and Mar selected. *)
Lemma month_name_total_and_in_range_witness :
  heap (loaded sample_csv) !! 0%nat = Some sample_csv ∧
  2015 ≠ 0 ∧ printable 2015 ∧ 1 ≤ 3 ≤ 12 ∧
  13 ≠ 0 ∧ - 2 ^ 31 ≤ 13 < 2 ^ 31 ∧ ¬ (1 ≤ 13 ≤ 12) ∧
  snd (run (select_gas (sample_env 1 16 3)) (loaded sample_csv)) = Ret "co2" ∧
  files (sample_env 1 16 3) !! "data/co2.csv" = Some sample_csv ∧
  run (generate_story 0%nat "co2" (Some 2015) (Some 3) (Some "line"))
      (loaded sample_csv) =
    (loaded sample_csv,
     Ret "The Line Chart represents the concentration of CO2 during March 2015. The dataset contains 4 data points for this time period, showing how the concentration of CO2 varied across this month.") ∧
  run (generate_story 0%nat "co2" (Some 2015) (Some 13) (Some "line"))
      (loaded sample_csv) = (loaded sample_csv, Raise ValueError) ∧
  run (main (sample_env 1 16 3)) (loaded sample_csv) =
    run (draw (sample_env 1 16 3) TimeSeries 1%nat "co2" (Some 2015) (Some 3);;
         draw (sample_env 1 16 3) ScatterPlot 1%nat "co2" (Some 2015) (Some 3);;
         draw (sample_env 1 16 3) StdScatter 1%nat "co2" (Some 2015) (Some 3))
        (mkState [sample_csv; sample_csv]
           [StTitle "Atmospheric Gases Concentration Dashboard";
            StSelectbox "Select Gas"; StSelectbox "Select Year";
            StSelectbox "Select Month"; OpenFile "data/co2.csv"]) ∧
  ∃ evs,
    trace (fst (run (draw (sample_env 1 16 3) TimeSeries 0%nat "co2"
                       (Some 2015) None) (loaded sample_csv)))
      = trace (loaded sample_csv) ++ evs ∧
    (∀ s, StWrite s ∈ evs →
       ∃ n, story_for_count n "co2" (Some 2015) None
              (Some (chart_type TimeSeries)) = Ret s).
Proof.
  assert (H : heap (loaded sample_csv) !! 0%nat = Some sample_csv) by reflexivity.
  assert (Hy : 2015 ≠ 0) by lia.
  assert (Hp : printable 2015) by (vm_compute; reflexivity).
  assert (H3 : 1 ≤ 3 ≤ 12) by lia.
  assert (H13 : 13 ≠ 0) by lia.
  assert (Hc : - 2 ^ 31 ≤ 13 < 2 ^ 31) by lia.
  assert (Ho : ¬ (1 ≤ 13 ≤ 12)) by lia.
  assert (Hg : snd (run (select_gas (sample_env 1 16 3)) (loaded sample_csv))
               = Ret "co2") by (vm_compute; reflexivity).
  assert (Hf : files (sample_env 1 16 3) !! "data/co2.csv" = Some sample_csv)
    by (vm_compute; reflexivity).
  destruct (month_name_total_and_in_range (sample_env 1 16 3) (loaded sample_csv))
    as (HA & HB & (y & m & Hsy & Hsm & _ & Hmain) & HE).
  destruct (HA 0%nat sample_csv "co2" 2015 3 (Some "line") H Hy Hp H3)
    as (name & Hname & Hstory).
  injection Hname as <-.
  assert (Hy' : y = Some 2015).
  { assert (E : snd (run (select_year (sample_env 1 16 3)) (loaded sample_csv))
                = Ret (Some 2015)) by (vm_compute; reflexivity).
    rewrite E in Hsy. by injection Hsy. }
  assert (Hm' : m = Some 3).
  { assert (E : snd (run (select_month (sample_env 1 16 3)) (loaded sample_csv))
                = Ret (Some 3)) by (vm_compute; reflexivity).
    rewrite Hsm in E. by injection E. }
  subst y m.
  destruct (HE TimeSeries (loaded sample_csv) 0%nat sample_csv "co2"
              (Some 2015) None H) as (evs & Hevs & Hst & _).
  split; [exact H|]. split; [exact Hy|]. split; [exact Hp|].
  split; [exact H3|]. split; [exact H13|]. split; [exact Hc|].
  split; [exact Ho|]. split; [exact Hg|]. split; [exact Hf|].
  split; [exact Hstory|].
  split; [exact (HB 0%nat sample_csv "co2" 2015 13 (Some "line") H Hy H13 Hc Ho)|].
  split; [exact (Hmain sample_csv Hg Hf)|].
  exists evs. split; [exact Hevs|exact Hst].
Defined.


(** * Further properties *)

Section More.
Context (env : Env).

Lemma present_trace p fig gas y m σ :
  trace (fst (present p fig gas y m σ)) = trace σ ++ present_events p fig gas y m.
Proof.
  unfold present, present_events. by destruct (story_for_count _ _ _ _ _).
Qed.

Lemma draw_trace p σ df (d : list Row) gas y m :
  heap σ !! df = Some d →
  trace (fst (run (draw env p df gas y m) σ)) =
  trace σ ++ draw_events env p d gas y m.
Proof.
  intros H. rewrite (draw_run env p σ df d) by done.
  unfold draw_result, draw_events. cbv zeta.
  destruct y as [y|], m as [m|];
    try (destruct (selected_rows env d _ _) eqn:Hrows; [done|]);
    rewrite ?present_trace; try done.
  cbn [fst trace]. by rewrite app_nil_r.
Qed.

Lemma selected_rows_clean (d : list Row) y m :
  selected_rows env (clean env d) y m = selected_rows env d y m.
Proof.
  destruct y as [y|]; [|apply clean_idemp].
  by rewrite !selected_rows_of_clean, clean_idemp.
Qed.

Lemma draw_events_clean p (d : list Row) gas y m :
  draw_events env p (clean env d) gas y m = draw_events env p d gas y m.
Proof. unfold draw_events. by rewrite clean_idemp, selected_rows_clean. Qed.

Lemma elem_of_range lo hi x : x ∈ range lo hi ↔ lo ≤ x < hi.
Proof.
  unfold range. rewrite list_elem_of_fmap. split.
  - intros (i & -> & Hi). apply elem_of_seq in Hi. lia.
  - intros Hx. exists (Z.to_nat (x - lo)). split; [lia|].
    apply elem_of_seq. lia.
Qed.


Lemma run_surjective {A} (m : M A) σ : run m σ = (fst (run m σ), snd (run m σ)).
Proof. by destruct (run m σ). Qed.

Lemma draw_preserves p σ df (d : list Row) gas y m l :
  heap σ !! df = Some d → l ≠ df → (l < length (heap σ))%nat →
  heap (fst (run (draw env p df gas y m) σ)) !! l = heap σ !! l.
Proof.
  intros H Hl Hlen. rewrite (draw_heap env p σ df d) by done.
  destruct y; [rewrite lookup_app_l by (by rewrite length_insert)|];
    by apply list_lookup_insert_ne.
Qed.

Lemma draw_grows p σ df (d : list Row) gas y m :
  heap σ !! df = Some d →
  (length (heap σ) ≤ length (heap (fst (run (draw env p df gas y m) σ))))%nat.
Proof.
  intros H. rewrite (draw_heap env p σ df d) by done.
  destruct y; rewrite ?length_app, length_insert; lia.
Qed.

Lemma three_draws σ1 df (d : list Row) gas y m :
  heap σ1 !! df = Some d →
  (∀ m', m = Some m' → 1 ≤ m' ≤ 12) →
  ∃ σ4,
    (draw env TimeSeries df gas y m;;
     draw env ScatterPlot df gas y m;;
     draw env StdScatter df gas y m) σ1 = (σ4, Ret tt) ∧
    trace σ4 =
      trace σ1 ++ draw_events env TimeSeries d gas y m
               ++ draw_events env ScatterPlot d gas y m
               ++ draw_events env StdScatter d gas y m ∧
    heap σ4 !! df = Some (clean env d) ∧
    (∀ l, l ≠ df → (l < length (heap σ1))%nat → heap σ4 !! l = heap σ1 !! l).
Proof.
  intros H1 Hm.
  pose proof (draw_total env TimeSeries σ1 df d gas y m H1 Hm) as T1.
  pose proof (draw_cleans env TimeSeries σ1 df d gas y m H1) as H2.
  pose proof (draw_trace TimeSeries σ1 df d gas y m H1) as E1.
  set (σ2 := fst (run (draw env TimeSeries df gas y m) σ1)) in *.
  pose proof (draw_total env ScatterPlot σ2 df _ gas y m H2 Hm) as T2.
  pose proof (draw_cleans env ScatterPlot σ2 df _ gas y m H2) as H3.
  pose proof (draw_trace ScatterPlot σ2 df _ gas y m H2) as E2.
  set (σ3 := fst (run (draw env ScatterPlot df gas y m) σ2)) in *.
  pose proof (draw_total env StdScatter σ3 df _ gas y m H3 Hm) as T3.
  pose proof (draw_cleans env StdScatter σ3 df _ gas y m H3) as H4.
  pose proof (draw_trace StdScatter σ3 df _ gas y m H3) as E3.
  set (σ4 := fst (run (draw env StdScatter df gas y m) σ3)) in *.
  rewrite !clean_idemp in *. rewrite !draw_events_clean in *.
  exists σ4. split; [|split; [|split; [done|]]].
  - unfold mbind, M_bind.
    change (draw env TimeSeries df gas y m σ1)
      with (run (draw env TimeSeries df gas y m) σ1).
    rewrite (run_surjective (draw env TimeSeries df gas y m) σ1), T1.
    fold σ2.
    change (draw env ScatterPlot df gas y m σ2)
      with (run (draw env ScatterPlot df gas y m) σ2).
    rewrite (run_surjective (draw env ScatterPlot df gas y m) σ2), T2.
    fold σ3.
    change (draw env StdScatter df gas y m σ3)
      with (run (draw env StdScatter df gas y m) σ3).
    by rewrite (run_surjective (draw env StdScatter df gas y m) σ3), T3.
  - rewrite E3, E2, E1. by rewrite <- !app_assoc.
  - intros l Hl Hlen.
    pose proof (draw_grows TimeSeries σ1 df d gas y m H1) as G1. fold σ2 in G1.
    pose proof (draw_grows ScatterPlot σ2 df _ gas y m H2) as G2. fold σ3 in G2.
    subst σ4. rewrite (draw_preserves StdScatter σ3 df (clean env d)) by (done || lia).
    subst σ3. rewrite (draw_preserves ScatterPlot σ2 df (clean env d)) by (done || lia).
    subst σ2. by rewrite (draw_preserves TimeSeries σ1 df d).
Qed.

Lemma chosen_gas_cases :
  (pick env "Select Gas" = 1%nat ∧ chosen_gas env = "co2") ∨
  (pick env "Select Gas" ≠ 1%nat ∧ chosen_gas env = "select gas").
Proof.
  unfold chosen_gas. destruct (pick env "Select Gas") as [|[|n]]; cbn.
  - right. split; [lia|done].
  - left. done.
  - right. split; [lia|done].
Qed.

(** A run of [main] that finds the file: the page and the store. *)
Lemma main_loaded σ (d : DataFrame) :
  pick env "Select Gas" = 1%nat →
  files env !! "data/co2.csv" = Some d →
  ∃ σ',
    run (main env) σ = (σ', Ret tt) ∧
    trace σ' =
      trace σ ++ header ++ [OpenFile "data/co2.csv"]
        ++ draw_events env TimeSeries d "co2" (chosen_year env) (chosen_month env)
        ++ draw_events env ScatterPlot d "co2" (chosen_year env) (chosen_month env)
        ++ draw_events env StdScatter d "co2" (chosen_year env) (chosen_month env) ∧
    heap σ' !! length (heap σ) = Some (clean env d) ∧
    (∀ l, (l < length (heap σ))%nat → heap σ' !! l = heap σ !! l).
Proof.
  intros Hpick Hfile. rewrite main_run. cbv zeta.
  destruct chosen_gas_cases as [[_ Hg]|[Hne _]]; [|done]. rewrite Hg.
  destruct (decide _) as [|_]; [done|].
  assert (files env !! ("data/" +:+ "co2" +:+ ".csv") = Some d) as -> by exact Hfile.
  assert (Hm : ∀ m', chosen_month env = Some m' → 1 ≤ m' ≤ 12).
  { intros m' Hm'. destruct (chosen_month_range env) as [Hn|(m & Hs & Hr)]; congruence. }
  set (σ1 := mkState (heap σ ++ [d]) _).
  assert (H1 : heap σ1 !! length (heap σ) = Some d) by apply lookup_new.
  destruct (three_draws σ1 _ d "co2" (chosen_year env) (chosen_month env) H1 Hm)
    as (σ4 & Hrun & Htr & Hheap & Hkeep).
  exists σ4. split; [exact Hrun|]. split; [|split; [done|]].
  - rewrite Htr. subst σ1. cbn [trace]. by rewrite <- !app_assoc.
  - intros l Hl. rewrite Hkeep by (subst σ1; cbn [heap]; rewrite ?length_app; lia).
    subst σ1. cbn [heap]. by rewrite lookup_app_l.
Qed.

End More.

(** ** The drop-downs *)

Section Choices.
Context (env : Env).

Lemma chosen_year_range :
  chosen_year env = None ∨
  ∃ y, chosen_year env = Some y ∧ 2000 ≤ y ≤ now_year env.
Proof.
  unfold chosen_year.
  destruct (_ !! pick env "Select Year") as [v|] eqn:Hv; [|by left].
  apply list_elem_of_lookup_2 in Hv. cbn [default].
  apply elem_of_app in Hv as [Hv|Hv].
  - apply list_elem_of_singleton in Hv as ->. by left.
  - apply list_elem_of_fmap in Hv as (y & -> & Hy). right.
    apply elem_of_range in Hy. exists y. split; [done|lia].
Qed.

Lemma chosen_year_position (i : nat) :
  pick env "Select Year" = S i →
  2000 + Z.of_nat i ≤ now_year env →
  chosen_year env = Some (2000 + Z.of_nat i).
Proof.
  intros Hpick Hi. unfold chosen_year. rewrite Hpick.
  assert (([SelectYear] ++ (YearInt <$> range 2000 (now_year env + 1))) !! S i
          = Some (YearInt (2000 + Z.of_nat i))) as ->; [|done].
  change ((YearInt <$> range 2000 (now_year env + 1)) !! i
          = Some (YearInt (2000 + Z.of_nat i))).
  unfold range. rewrite !list_lookup_fmap, lookup_seq_lt by lia. reflexivity.
Qed.

Lemma chosen_month_position (i : nat) :
  pick env "Select Month" = i → (1 ≤ i ≤ 12)%nat →
  chosen_month env = Some (Z.of_nat i).
Proof.
  intros Hpick Hi. unfold chosen_month. rewrite Hpick.
  destruct i as [|i]; [lia|].
  do 12 (destruct i as [|i]; [vm_compute; reflexivity|]). lia.
Qed.

End Choices.

(** X1. [select_year] draws its drop-down and returns either nothing or
    a year from 2000 up to the current year; it returns no year at all
    when the clock is before 2000. *)
Theorem select_year_in_range env σ :
  ∃ r,
    run (select_year env) σ =
      (mkState (heap σ) (trace σ ++ [StSelectbox "Select Year"]), Ret r) ∧
    (r = None ∨ ∃ y, r = Some y ∧ 2000 ≤ y ≤ now_year env).
Proof.
  exists (chosen_year env). split; [|apply chosen_year_range].
  pose proof (bind_select_year env (λ r, mret r) σ) as Hb.
  unfold mbind, M_bind in Hb. unfold run.
  destruct (select_year env σ) as [σ' [r|e]]; [|done]. by injection Hb as -> ->.
Qed.

(** X2. The entry at position [i + 1] of the year drop-down is the year
    [2000 + i], as long as that year is not in the future; the first
    entry is the placeholder and gives no year. *)
Theorem select_year_position env σ (i : nat) :
  2000 + Z.of_nat i ≤ now_year env →
  (pick env "Select Year" = S i →
   snd (run (select_year env) σ) = Ret (Some (2000 + Z.of_nat i))) ∧
  (pick env "Select Year" = 0%nat →
   snd (run (select_year env) σ) = Ret None).
Proof.
  intros Hi. rewrite select_year_result. split; intros Hpick.
  - by rewrite (chosen_year_position env i).
  - unfold chosen_year. by rewrite Hpick.
Qed.

(** X3. The entry at position [i] of the month drop-down, for [i] from
    1 to 12, is month number [i]: the order of the abbreviations in the
    box agrees with the numbers in [month_dict]. *)
Theorem select_month_position env σ (i : nat) :
  (1 ≤ i ≤ 12)%nat →
  pick env "Select Month" = i →
  run (select_month env) σ =
    (mkState (heap σ) (trace σ ++ [StSelectbox "Select Month"]),
     Ret (Some (Z.of_nat i))).
Proof.
  intros Hi Hpick.
  pose proof (bind_select_month env (λ r, mret r) σ) as Hb.
  unfold mbind, M_bind in Hb. unfold run.
  destruct (select_month env σ) as [σ' [r|e]]; [|done]. injection Hb as -> ->.
  by rewrite (chosen_month_position env i).
Qed.

(** X4. Every abbreviation of [month_dict] is the beginning of the month
    name that [generate_story] derives from its number: the table maps
    each abbreviation to the right month. *)
Theorem month_abbreviation_matches_name (abbr : string) (m : Z) :
  month_dict !! abbr = Some m →
  ∃ t, datetime 2000 m 1 = Ret t ∧ String.prefix abbr (strftime_B t) = true.
Proof.
  intros Hm. unfold month_dict in Hm. apply elem_of_list_to_map_2 in Hm.
  repeat (apply elem_of_cons in Hm as [Heq|Hm];
          [injection Heq as -> ->; eexists; split; reflexivity|]).
  by apply elem_of_nil in Hm.
Qed.

Lemma select_year_position_witness :
  2000 + Z.of_nat 15 ≤ now_year (sample_env 1 16 0) ∧
  pick (sample_env 1 16 0) "Select Year" = 16%nat ∧
  snd (run (select_year (sample_env 1 16 0)) start) = Ret (Some 2015).
Proof.
  assert (H : 2000 + Z.of_nat 15 ≤ now_year (sample_env 1 16 0))
    by (vm_compute; discriminate).
  split; [exact H|]. split; [reflexivity|].
  exact (proj1 (select_year_position (sample_env 1 16 0) start 15 H) eq_refl).
Defined.

Lemma select_month_position_witness :
  (1 ≤ 6 ≤ 12)%nat ∧
  pick (sample_env 1 16 6) "Select Month" = 6%nat ∧
  run (select_month (sample_env 1 16 6)) start =
    (mkState (heap start) (trace start ++ [StSelectbox "Select Month"]),
     Ret (Some 6)).
Proof.
  assert (H : (1 ≤ 6 ≤ 12)%nat) by lia.
  split; [exact H|]. split; [reflexivity|].
  exact (select_month_position (sample_env 1 16 6) start 6 H eq_refl).
Defined.

Lemma month_abbreviation_matches_name_witness :
  month_dict !! "Sep" = Some 9 ∧
  ∃ t, datetime 2000 9 1 = Ret t ∧ String.prefix "Sep" (strftime_B t) = true.
Proof.
  assert (H : month_dict !! "Sep" = Some 9) by (vm_compute; reflexivity).
  split; [exact H|]. exact (month_abbreviation_matches_name "Sep" 9 H).
Defined.

(** ** Retrieval and stories *)

(** X5. [get_data_source] never raises.  It returns a dataset exactly
    when the gas is not the placeholder and the loader finds
    [data/<gas>.csv]; the dataset is then a new object that holds the
    table of the file.  When it returns none the store is as before,
    and for the placeholder nothing at all has happened: the loader is
    not asked, even if a file of that name exists. *)
Theorem get_data_source_result env σ gas :
  ∃ σ' r,
    run (get_data_source env gas) σ = (σ', Ret r) ∧
    (is_Some r ↔
       gas ≠ "select gas" ∧
       is_Some (files env !! ("data/" +:+ gas +:+ ".csv"))) ∧
    match r with
    | Some df =>
        heap σ !! df = None ∧
        heap σ' !! df = files env !! ("data/" +:+ gas +:+ ".csv") ∧
        trace σ' = trace σ ++ [OpenFile ("data/" +:+ gas +:+ ".csv")]
    | None =>
        heap σ' = heap σ ∧ (gas = "select gas" → σ' = σ)
    end.
Proof.
  destruct (decide (gas = "select gas")) as [->|Hgas].
  - exists σ, None. split; [reflexivity|]. split; [|done].
    split; [intros [? [=]]|intros [? _]; done].
  - destruct (files env !! ("data/" +:+ gas +:+ ".csv")) as [d|] eqn:Hfile.
    + eexists _, _. split; [by apply get_data_source_found|].
      split; [split; eauto|]. cbn [heap trace].
      split; [apply lookup_ge_None; lia|]. split; [apply lookup_new|done].
    + eexists _, _. split; [by apply get_data_source_missing|].
      split; [|done]. split; [intros [? [=]]|intros [_ [? [=]]]].
Qed.

(** X6. For a year that can be formatted and a month that fits a C
    int, [generate_story] leaves the store and the page alone, and it
    fails, with a [ValueError], exactly when the year counts as given
    and the month is a non-zero number outside 1 to 12; in every other
    case it returns a sentence. *)
Theorem generate_story_raises_iff σ df d gas y m ct :
  heap σ !! df = Some d →
  (∀ y', y = Some y' → printable y') →
  (∀ m', m = Some m' → - 2 ^ 31 ≤ m' < 2 ^ 31) →
  ∃ o,
    run (generate_story df gas y m ct) σ = (σ, o) ∧
    ((∃ s, o = Ret s) ∨ o = Raise ValueError) ∧
    (o = Raise ValueError ↔
       truthy y = true ∧ ∃ m', m = Some m' ∧ m' ≠ 0 ∧ ¬ (1 ≤ m' ≤ 12)).
Proof.
  intros H _ Hc. eexists. split; [by apply generate_story_outcome|].
  destruct (truthy y) eqn:Hy.
  - destruct m as [m'|].
    + destruct (decide (m' = 0)) as [->|Hm0].
      * rewrite story_year by done. split; [eauto|].
        split; [done|]. intros (_ & m'' & [= <-] & Hne & _). done.
      * destruct (decide (1 ≤ m' ≤ 12)) as [Hm|Hm].
        -- rewrite story_month by done. split; [eauto|].
           split; [done|]. intros (_ & m'' & [= <-] & _ & Hout). done.
        -- rewrite story_outside by auto. split; [by right|].
           split; [|done]. intros _. split; [done|]. by exists m'.
    + rewrite story_year by done. split; [eauto|].
      split; [done|]. intros (_ & m'' & [=] & _).
  - rewrite story_none by done. split; [eauto|].
    split; [done|]. intros [[=] _].
Qed.

(** X7. Without a year [generate_story] does not look at the month: the
    story is the one for the full dataset, whatever the month, also
    when the year is the number 0. *)
Theorem generate_story_month_needs_year σ df d gas y m ct :
  heap σ !! df = Some d →
  y = None ∨ y = Some 0 →
  run (generate_story df gas y m ct) σ =
  run (generate_story df gas None None ct) σ.
Proof.
  intros H Hy. rewrite !(generate_story_outcome σ df d) by done.
  rewrite !story_none; [done..|]. by destruct Hy as [->| ->].
Qed.

(** X8. Of the table, [generate_story] uses the number of rows and
    nothing else: two tables of the same length get the same story. *)
Theorem generate_story_reads_only_length σ σ' df df' (d d' : list Row) gas y m ct :
  heap σ !! df = Some d →
  heap σ' !! df' = Some d' →
  length d = length d' →
  snd (run (generate_story df gas y m ct) σ) =
  snd (run (generate_story df' gas y m ct) σ').
Proof.
  intros H H' Hlen.
  rewrite (generate_story_outcome σ df d), (generate_story_outcome σ' df' d') by done.
  cbn [snd]. by rewrite Hlen.
Qed.

Lemma generate_story_raises_iff_witness :
  heap (loaded sample_csv) !! 0%nat = Some sample_csv ∧
  (∀ y', Some 2015 = Some y' → printable y') ∧
  (∀ m', Some 13 = Some m' → - 2 ^ 31 ≤ m' < 2 ^ 31) ∧
  ∃ o,
    run (generate_story 0%nat "co2" (Some 2015) (Some 13) (Some "line"))
        (loaded sample_csv) = (loaded sample_csv, o) ∧
    ((∃ s, o = Ret s) ∨ o = Raise ValueError) ∧
    (o = Raise ValueError ↔
       truthy (Some 2015) = true ∧
       ∃ m', Some 13 = Some m' ∧ m' ≠ 0 ∧ ¬ (1 ≤ m' ≤ 12)).
Proof.
  assert (Hy : ∀ y', Some 2015 = Some y' → printable y')
    by (intros y' [= <-]; vm_compute; reflexivity).
  assert (Hm : ∀ m', Some 13 = Some m' → - 2 ^ 31 ≤ m' < 2 ^ 31)
    by (intros m' [= <-]; lia).
  split; [reflexivity|]. split; [exact Hy|]. split; [exact Hm|].
  apply (generate_story_raises_iff (loaded sample_csv) 0%nat sample_csv "co2"
           (Some 2015) (Some 13) (Some "line")).
  - reflexivity.
  - exact Hy.
  - exact Hm.
Defined.

Lemma generate_story_month_needs_year_witness :
  heap (loaded sample_csv) !! 0%nat = Some sample_csv ∧
  (@None Z = None ∨ @None Z = Some 0) ∧
  run (generate_story 0%nat "co2" None (Some 6) (Some "scatter"))
      (loaded sample_csv) =
  run (generate_story 0%nat "co2" None None (Some "scatter"))
      (loaded sample_csv).
Proof.
  split; [reflexivity|]. split; [left; reflexivity|].
  apply (generate_story_month_needs_year (loaded sample_csv) 0%nat sample_csv
           "co2" None (Some 6) (Some "scatter")).
  - reflexivity.
  - left. reflexivity.
Defined.

Lemma generate_story_reads_only_length_witness :
  heap (loaded sample_csv) !! 0%nat = Some sample_csv ∧
  heap (mkState [[]; reverse sample_csv] []) !! 1%nat = Some (reverse sample_csv) ∧
  length sample_csv = length (reverse sample_csv) ∧
  snd (run (generate_story 0%nat "co2" (Some 2015) None None) (loaded sample_csv)) =
  snd (run (generate_story 1%nat "co2" (Some 2015) None None)
           (mkState [[]; reverse sample_csv] [])).
Proof.
  split; [reflexivity|]. split; [reflexivity|]. split; [reflexivity|].
  apply (generate_story_reads_only_length (loaded sample_csv)
           (mkState [[]; reverse sample_csv] []) 0%nat 1%nat
           sample_csv (reverse sample_csv) "co2" (Some 2015) None None);
    reflexivity.
Defined.

(** ** Rows kept and rows dropped *)

Section MoreRows.
Context (env : Env).

Lemma omap_sublist {A B} (f g : A → option B) (l : list A) :
  (∀ x, f x = None ∨ f x = g x) → omap f l `sublist_of` omap g l.
Proof.
  intros Hfg. induction l as [|x l IH]; [constructor|].
  cbn [omap list_omap]. destruct (Hfg x) as [-> | ->].
  - destruct (g x); [by apply sublist_cons|done].
  - destruct (g x); [by apply sublist_skip|done].
Qed.

Lemma month_rows_sublist (d : list Row) y m :
  selected_rows env d (Some y) (Some m) `sublist_of` selected_rows env d (Some y) None.
Proof.
  unfold selected_rows. apply omap_sublist. intros r.
  destruct (parsed env _ r) as [t|]; [|by left]. cbn.
  unfold in_selection. destruct (ts_year t =? y), (ts_month t =? m); cbn; auto.
Qed.

Lemma year_rows_sublist (d : list Row) y :
  selected_rows env d (Some y) None `sublist_of` clean env d.
Proof.
  unfold selected_rows, clean. apply omap_sublist. intros r.
  destruct (parsed env _ r) as [t|]; [|by left]. cbn.
  destruct (in_selection y None t); auto.
Qed.

Lemma clean_sublist {B} (f : Row → B) (d : list Row) :
  (∀ r t, f (cleaned_row r t) = f r) →
  f <$> clean env d `sublist_of` f <$> d.
Proof.
  intros Hf. unfold clean. generalize (date <$> d) as col. intros col.
  induction d as [|r d IH]; [constructor|].
  cbn [omap list_omap fmap list_fmap].
  destruct (parsed env col r) as [t|]; cbn.
  - rewrite Hf. by apply sublist_skip.
  - by apply sublist_cons.
Qed.

Lemma clean_all_parsed {B} (f : Row → B) (d : list Row) :
  (∀ r t, f (cleaned_row r t) = f r) →
  Forall (λ r, is_Some (parsed env (date <$> d) r)) d →
  f <$> clean env d = f <$> d.
Proof.
  intros Hf. unfold clean. generalize (date <$> d) as col. intros col.
  induction d as [|r d IH]; [done|]. intros Hall.
  apply Forall_cons in Hall as [[t Ht] Hall].
  cbn [omap list_omap fmap list_fmap]. rewrite Ht. cbn.
  rewrite Hf. f_equal. by apply IH.
Qed.

Lemma clean_rows_clean (d : list Row) : Forall clean_row (clean env d).
Proof.
  unfold clean. generalize (date <$> d) as col. intros col.
  induction d as [|r d IH]; [constructor|].
  cbn [omap list_omap]. destruct (parsed env col r) as [t|]; [|done].
  cbn. constructor; [by exists t|done].
Qed.

Lemma selected_rows_outside (d : list Row) y m :
  calendar_dates env d → ¬ (1 ≤ m ≤ 12) →
  selected_rows env d (Some y) (Some m) = [].
Proof.
  intros [Hd Hp] Hm. apply elem_of_nil_inv. intros r' Hin.
  apply elem_of_selected_rows in Hin as (r & t & Hr & Ht & _ & Hmt & _); [|done].
  specialize (Hmt m eq_refl). apply Hm. rewrite <- Hmt.
  unfold parsed, coerce in Ht.
  destruct (date r) eqn:Hdate;
    try (destruct (parse_date env _ _) as [t'|] eqn:Hparse; [|done];
         injection Ht as <-; by eapply Hp).
  - injection Ht as <-. by eapply Hd.
  - done.
Qed.

Lemma filtered_lookup p σ df (d : list Row) gas y m :
  heap σ !! df = Some d →
  heap (fst (run (draw env p df gas (Some y) m) σ)) !! length (heap σ) =
  Some (selected_rows env d (Some y) m).
Proof.
  intros H. rewrite (draw_heap env p σ df d) by done.
  rewrite <- (length_insert (heap σ) df (clean env d)). apply lookup_new.
Qed.

End MoreRows.

(** X9. When the dates in the table and the dates the parser yields are
    dates of the calendar, no draw function ever raises, whatever
    numbers are passed as year and month: a month outside 1 to 12
    matches no row, so the branch ends in the warning and the month
    name is never asked for. *)
Theorem draw_never_raises env p σ df d gas y m :
  heap σ !! df = Some d →
  calendar_dates env d →
  snd (run (draw env p df gas y m) σ) = Ret tt.
Proof.
  intros H Hcal.
  destruct m as [m|]; [|by apply (draw_total env p σ df d)].
  destruct (decide (1 ≤ m ≤ 12)) as [Hm|Hm].
  - apply (draw_total env p σ df d); [done|]. by intros m' [= <-].
  - rewrite (draw_run env p σ df d) by done. unfold draw_result. cbv zeta.
    destruct y as [y|]; [|done].
    by rewrite selected_rows_outside.
Qed.

(** X10. Filtering only drops rows.  On one table, the rows kept for a
    year and a month are, in order, among those kept for the year
    alone, these are among the rows of the cleaned table, and the
    cleaned table has, in order, labels and measurements of rows of the
    table as it was loaded. *)
Theorem selection_narrows env p σ df d gas y m :
  heap σ !! df = Some d →
  ∃ dm dy dc,
    heap (fst (run (draw env p df gas (Some y) (Some m)) σ)) !! length (heap σ)
      = Some dm ∧
    heap (fst (run (draw env p df gas (Some y) None) σ)) !! length (heap σ)
      = Some dy ∧
    heap (fst (run (draw env p df gas None None) σ)) !! df = Some dc ∧
    dm `sublist_of` dy ∧
    dy `sublist_of` dc ∧
    (λ r, (label r, Alt_Mean r, std_CO2 r)) <$> dc
      `sublist_of` (λ r, (label r, Alt_Mean r, std_CO2 r)) <$> d.
Proof.
  intros H. eexists _, _, _.
  split; [by apply filtered_lookup|]. split; [by apply filtered_lookup|].
  split; [by apply draw_cleans|].
  split; [apply month_rows_sublist|]. split; [apply year_rows_sublist|].
  by apply clean_sublist.
Qed.

(** X11. After a draw function every row of the caller's table has a
    timestamp as its date and the year of that timestamp in [year].  If
    every date of the table parses, no row is lost: the labels and the
    measurements are those of the table before, row by row. *)
Theorem cleaned_table_invariant env p σ df d gas y m :
  heap σ !! df = Some d →
  ∃ d',
    heap (fst (run (draw env p df gas y m) σ)) !! df = Some d' ∧
    Forall clean_row d' ∧
    (Forall (λ r, is_Some (parsed env (date <$> d) r)) d →
       (λ r, (label r, Alt_Mean r, std_CO2 r)) <$> d'
       = (λ r, (label r, Alt_Mean r, std_CO2 r)) <$> d).
Proof.
  intros H. exists (clean env d). split; [by apply draw_cleans|].
  split; [apply clean_rows_clean|]. intros Hall. by apply clean_all_parsed.
Qed.

(** X12. What a pipeline adds to the page does not depend on the
    pipelines that ran before it on the same table, whatever their
    selection was. *)
Theorem pipelines_independent env p q σ df d gas y m y' m' :
  heap σ !! df = Some d →
  let σp := fst (run (draw env p df gas y' m') σ) in
  ∃ evs,
    trace (fst (run (draw env q df gas y m) σ)) = trace σ ++ evs ∧
    trace (fst (run (draw env q df gas y m) σp)) = trace σp ++ evs.
Proof.
  intros H σp. exists (draw_events env q d gas y m).
  split; [by apply draw_trace|].
  rewrite (draw_trace env q σp df (clean env d)) by (by apply draw_cleans).
  by rewrite draw_events_clean.
Qed.

(** X13. One call of a draw function adds at most one chart and at most
    one warning to the page, never both.  Every chart has [date] on the
    x-axis and takes the width of its container; it is a line chart in
    [draw_time_series] and a scatter plot in the other two. *)
Theorem chart_shape env p σ df d gas y m :
  heap σ !! df = Some d →
  ∃ evs,
    trace (fst (run (draw env p df gas y m) σ)) = trace σ ++ evs ∧
    (length (charts evs) ≤ 1)%nat ∧
    (length (warnings evs) ≤ 1)%nat ∧
    (charts evs = [] ∨ warnings evs = []) ∧
    (∀ fig w, StPlotlyChart fig w ∈ evs →
       w = true ∧ fig_x fig = "date" ∧
       fig_chart fig = match p with TimeSeries => Line | _ => Scatter end).
Proof.
  intros H. exists (draw_events env p d gas y m). split; [by apply draw_trace|].
  assert (Hp : ∀ fig y m,
    let evs := present_events p fig gas y m in
    charts evs = [fig] ∧ warnings evs = [] ∧
    ∀ fig' w, StPlotlyChart fig' w ∈ evs → w = true ∧ fig' = fig).
  { intros fig y0 m0. unfold present_events.
    destruct (story_for_count _ _ _ _ _); (split; [done|]); (split; [done|]);
      intros fig' w Hin;
      repeat (apply elem_of_cons in Hin as [Heq|Hin];
              [try discriminate Heq; by injection Heq as -> ->|]);
      by apply elem_of_nil in Hin. }
  unfold draw_events. destruct y as [y|], m as [m|];
    try (destruct (selected_rows env d _ _) as [|r rows] eqn:Hrows);
    try match goal with
    | |- context [present_events p ?f gas ?a ?b] =>
        destruct (Hp f a b) as (-> & -> & Hin); cbn [length];
        (split; [lia|]); (split; [lia|]); (split; [by right|]);
        intros fig w Hfig; destruct (Hin fig w Hfig) as [-> ->];
        by destruct p
    end;
    cbn; (split; [lia|]); (split; [lia|]); (split; [by left|]);
    intros fig w Hin;
    repeat (apply elem_of_cons in Hin as [Heq|Hin]; [discriminate Heq|]);
    by apply elem_of_nil in Hin.
Qed.

(** ** Whole runs *)

Section MoreMain.
Context (env : Env).

Lemma charts_app evs1 evs2 : charts (evs1 ++ evs2) = charts evs1 ++ charts evs2.
Proof. apply omap_app. Qed.
Lemma stories_app evs1 evs2 : stories (evs1 ++ evs2) = stories evs1 ++ stories evs2.
Proof. apply omap_app. Qed.
Lemma warnings_app evs1 evs2 : warnings (evs1 ++ evs2) = warnings evs1 ++ warnings evs2.
Proof. apply omap_app. Qed.
Lemma opened_app evs1 evs2 : opened (evs1 ++ evs2) = opened evs1 ++ opened evs2.
Proof. apply omap_app. Qed.

Lemma opened_draw_events p (d : list Row) gas y m :
  opened (draw_events env p d gas y m) = [].
Proof.
  unfold draw_events, present_events.
  destruct y, m; try done;
    try (destruct (selected_rows env d _ _); [done|]);
    by destruct (story_for_count _ _ _ _ _).
Qed.

Lemma draw_events_shown p (d : list Row) gas y m :
  (y = None → m = None) →
  (y = None ∨ selected_rows env d y m ≠ []) →
  (∀ m', m = Some m' → 1 ≤ m' ≤ 12) →
  ∃ s,
    draw_events env p d gas y m =
    [StPlotlyChart (figure p y m (selected_rows env d y m)) true; StWrite s].
Proof.
  intros Hv Hne Hm. unfold draw_events, present_events.
  destruct y as [y|].
  - destruct Hne as [|Hne]; [done|].
    destruct (selected_rows env d (Some y) m) as [|r rows] eqn:Hrows; [done|].
    destruct (story_defined (length (fig_data (figure p (Some y) m (r :: rows))))
                gas (Some y) m (Some (chart_type p)) Hm) as (s & _ & _ & -> & _).
    by exists s.
  - rewrite (Hv eq_refl).
    destruct (story_defined (length (fig_data (figure p None None (clean env d))))
                gas None None (Some (chart_type p))) as (s & _ & _ & -> & _);
      [done|]. by exists s.
Qed.

Lemma chosen_month_in_range m' : chosen_month env = Some m' → 1 ≤ m' ≤ 12.
Proof.
  intros Hm'. destruct (chosen_month_range env) as [Hn|(m & Hs & Hr)]; congruence.
Qed.

End MoreMain.

(** X14. When the selected year (and month) matches no row of the CO2
    table, a run of [main] shows the same warning three times, once per
    pipeline, and nothing else after the drop-downs. *)
Theorem main_warns_three_times env σ d y m :
  pick env "Select Gas" = 1%nat →
  files env !! "data/co2.csv" = Some d →
  snd (run (select_year env) σ) = Ret (Some y) →
  snd (run (select_month env) σ) = Ret m →
  selected_rows env d (Some y) m = [] →
  ∃ σ' w,
    run (main env) σ = (σ', Ret tt) ∧
    w = StWarning
          match m with
          | None => "No data available for the selected year."
          | Some _ => "No data available for the selected month and year."
          end ∧
    trace σ' =
      trace σ ++
      [StTitle "Atmospheric Gases Concentration Dashboard";
       StSelectbox "Select Gas"; StSelectbox "Select Year";
       StSelectbox "Select Month"; OpenFile "data/co2.csv"; w; w; w].
Proof.
  intros Hpick Hfile. rewrite select_year_result, select_month_result.
  intros [= Hy] [= Hm] Hrows.
  destruct (main_loaded env σ d Hpick Hfile) as (σ' & Hrun & Htr & _).
  exists σ', (StWarning (warning_text m)).
  split; [exact Hrun|]. split; [by destruct m|].
  rewrite Htr, Hy, Hm. unfold draw_events. by rewrite Hrows.
Qed.

(** X15. When the selection keeps rows of the CO2 table (or nothing is
    selected), a run of [main] shows three charts of the same rows, a
    line chart and two scatter plots, each followed by its story, and
    no warning.  The y-axes are [Alt_Mean], [Alt_Mean] and [std CO2],
    but [std CO2] for the line chart too once a month is selected. *)
Theorem main_charts_same_rows env σ d y m :
  pick env "Select Gas" = 1%nat →
  files env !! "data/co2.csv" = Some d →
  snd (run (select_year env) σ) = Ret y →
  snd (run (select_month env) σ) = Ret m →
  (y = None → m = None) →
  (y = None ∨ selected_rows env d y m ≠ []) →
  ∃ σ' evs,
    run (main env) σ = (σ', Ret tt) ∧
    trace σ' = trace σ ++ evs ∧
    fig_data <$> charts evs =
      [selected_rows env d y m; selected_rows env d y m; selected_rows env d y m] ∧
    fig_chart <$> charts evs = [Line; Scatter; Scatter] ∧
    fig_y <$> charts evs =
      [match m with Some _ => "std CO2" | None => "Alt_Mean" end;
       "Alt_Mean"; "std CO2"] ∧
    length (stories evs) = 3%nat ∧
    warnings evs = [].
Proof.
  intros Hpick Hfile. rewrite select_year_result, select_month_result.
  intros [= Hy] [= Hm] Hv Hne.
  destruct (main_loaded env σ d Hpick Hfile) as (σ' & Hrun & Htr & _).
  rewrite Hy, Hm in Htr.
  assert (Hr : ∀ m', m = Some m' → 1 ≤ m' ≤ 12).
  { intros m' ->. apply (chosen_month_in_range env). by rewrite Hm. }
  destruct (draw_events_shown env TimeSeries d "co2" y m Hv Hne Hr) as [s1 E1].
  destruct (draw_events_shown env ScatterPlot d "co2" y m Hv Hne Hr) as [s2 E2].
  destruct (draw_events_shown env StdScatter d "co2" y m Hv Hne Hr) as [s3 E3].
  rewrite E1, E2, E3 in Htr.
  eexists σ', _. split; [exact Hrun|]. split; [exact Htr|].
  repeat split; by destruct m.
Qed.

(** X16. A run of [main] opens at most one file, and that file is
    [data/co2.csv]; it opens none exactly when the gas drop-down is not
    on CO2. *)
Theorem main_opens_only_co2 env σ :
  ∃ evs,
    trace (fst (run (main env) σ)) = trace σ ++ evs ∧
    (opened evs = [] ∨ opened evs = ["data/co2.csv"]) ∧
    (opened evs = [] ↔ pick env "Select Gas" ≠ 1%nat).
Proof.
  destruct (chosen_gas_cases env) as [[Hpick Hg]|[Hpick Hg]].
  - destruct (files env !! "data/co2.csv") as [d|] eqn:Hfile.
    + destruct (main_loaded env σ d Hpick Hfile) as (σ' & Hrun & Htr & _).
      rewrite Hrun. eexists. split; [exact Htr|].
      rewrite !opened_app, !opened_draw_events. cbn.
      split; [by right|]. split; [done|]. intros Hne. by destruct Hne.
    + rewrite main_run. cbv zeta. rewrite Hg.
      destruct (decide _) as [|_]; [done|].
      assert (files env !! ("data/" +:+ "co2" +:+ ".csv") = None) as -> by exact Hfile.
      eexists. cbn [fst trace].
      split; [by rewrite <- app_assoc|]. cbn.
      split; [by right|]. split; [done|]. intros Hne. by destruct Hne.
  - rewrite main_run. cbv zeta. rewrite Hg.
    destruct (decide _) as [_|]; [|done].
    eexists. cbn [fst trace].
    split; [by rewrite <- app_assoc|]. cbn. split; [by left|]. done.
Qed.

(** ** The further properties on the sample run *)

Lemma datetime_calendar y m d t : datetime y m d = Ret t → calendar_month t.
Proof.
  unfold datetime, calendar_month.
  destruct (negb _); [done|].
  destruct (Z.leb_spec 1 m), (Z.leb_spec m 12);
    rewrite ?andb_false_r; cbn [andb]; try done.
  destruct (_ && _); [|done]. intros [= <-]. cbn. lia.
Qed.

Lemma iso_date_calendar col c t : iso_date col c = Some t → calendar_month t.
Proof.
  unfold iso_date. destruct c as [s| | | |]; try done.
  destruct (decide _); [|done].
  destruct (number 0 (substring 0 4 s)) as [y|]; [|done].
  destruct (number 0 (substring 5 2 s)) as [m|]; [|done].
  destruct (number 0 (substring 8 2 s)) as [d|]; [|done]. cbn.
  destruct (datetime y m d) eqn:Hdt; [|done]. intros [= <-].
  by eapply datetime_calendar.
Qed.

Lemma sample_calendar g y m : calendar_dates (sample_env g y m) sample_csv.
Proof.
  split.
  - intros r t Hr Hd. unfold sample_csv in Hr.
    repeat (apply elem_of_cons in Hr as [->|Hr]; [discriminate Hd|]).
    by apply elem_of_nil in Hr.
  - intros col c t. apply iso_date_calendar.
Qed.

Lemma draw_never_raises_witness :
  heap (loaded sample_csv) !! 0%nat = Some sample_csv ∧
  calendar_dates (sample_env 1 16 0) sample_csv ∧
  snd (run (draw (sample_env 1 16 0) TimeSeries 0%nat "co2" (Some 2015) (Some 13))
           (loaded sample_csv)) = Ret tt.
Proof.
  split; [reflexivity|]. split; [apply sample_calendar|].
  apply (draw_never_raises (sample_env 1 16 0) TimeSeries (loaded sample_csv)
           0%nat sample_csv "co2" (Some 2015) (Some 13)).
  - reflexivity.
  - apply sample_calendar.
Defined.

Lemma selection_narrows_witness :
  heap (loaded sample_csv) !! 0%nat = Some sample_csv ∧
  ∃ dm dy dc,
    heap (fst (run (draw (sample_env 1 16 6) ScatterPlot 0%nat "co2"
                      (Some 2015) (Some 6)) (loaded sample_csv)))
      !! length (heap (loaded sample_csv)) = Some dm ∧
    heap (fst (run (draw (sample_env 1 16 6) ScatterPlot 0%nat "co2"
                      (Some 2015) None) (loaded sample_csv)))
      !! length (heap (loaded sample_csv)) = Some dy ∧
    heap (fst (run (draw (sample_env 1 16 6) ScatterPlot 0%nat "co2"
                      None None) (loaded sample_csv))) !! 0%nat = Some dc ∧
    dm `sublist_of` dy ∧
    dy `sublist_of` dc ∧
    (λ r, (label r, Alt_Mean r, std_CO2 r)) <$> dc
      `sublist_of` (λ r, (label r, Alt_Mean r, std_CO2 r)) <$> sample_csv.
Proof.
  split; [reflexivity|].
  apply (selection_narrows (sample_env 1 16 6) ScatterPlot (loaded sample_csv)
           0%nat sample_csv "co2" 2015 6).
  reflexivity.
Defined.

(** The sample table without the row that has no date. *)
Lemma cleaned_table_invariant_witness :
  heap (loaded (delete 2%nat sample_csv)) !! 0%nat = Some (delete 2%nat sample_csv) ∧
  Forall (λ r, is_Some (parsed (sample_env 1 0 0)
                          (date <$> delete 2%nat sample_csv) r))
         (delete 2%nat sample_csv) ∧
  ∃ d',
    heap (fst (run (draw (sample_env 1 0 0) StdScatter 0%nat "co2" None None)
                   (loaded (delete 2%nat sample_csv)))) !! 0%nat = Some d' ∧
    Forall clean_row d' ∧
    (λ r, (label r, Alt_Mean r, std_CO2 r)) <$> d'
    = (λ r, (label r, Alt_Mean r, std_CO2 r)) <$> delete 2%nat sample_csv.
Proof.
  assert (Hall : Forall (λ r, is_Some (parsed (sample_env 1 0 0)
                          (date <$> delete 2%nat sample_csv) r))
                   (delete 2%nat sample_csv))
    by (repeat constructor; vm_compute; eauto).
  split; [reflexivity|]. split; [exact Hall|].
  destruct (cleaned_table_invariant (sample_env 1 0 0) StdScatter
              (loaded (delete 2%nat sample_csv)) 0%nat
              (delete 2%nat sample_csv) "co2" None None eq_refl)
    as (d' & Hd' & Hclean & Hsame).
  exists d'. split; [exact Hd'|]. split; [exact Hclean|]. exact (Hsame Hall).
Defined.

Lemma pipelines_independent_witness :
  heap (loaded sample_csv) !! 0%nat = Some sample_csv ∧
  let σp := fst (run (draw (sample_env 1 16 0) TimeSeries 0%nat "co2"
                        (Some 2016) (Some 2)) (loaded sample_csv)) in
  ∃ evs,
    trace (fst (run (draw (sample_env 1 16 0) StdScatter 0%nat "co2"
                       (Some 2015) None) (loaded sample_csv)))
      = trace (loaded sample_csv) ++ evs ∧
    trace (fst (run (draw (sample_env 1 16 0) StdScatter 0%nat "co2"
                       (Some 2015) None) σp))
      = trace σp ++ evs.
Proof.
  split; [reflexivity|].
  apply (pipelines_independent (sample_env 1 16 0) TimeSeries StdScatter
           (loaded sample_csv) 0%nat sample_csv "co2" (Some 2015) None
           (Some 2016) (Some 2)).
  reflexivity.
Defined.

Lemma chart_shape_witness :
  heap (loaded sample_csv) !! 0%nat = Some sample_csv ∧
  ∃ evs,
    trace (fst (run (draw (sample_env 1 16 0) TimeSeries 0%nat "co2"
                       (Some 2015) None) (loaded sample_csv)))
      = trace (loaded sample_csv) ++ evs ∧
    (length (charts evs) ≤ 1)%nat ∧
    (length (warnings evs) ≤ 1)%nat ∧
    (charts evs = [] ∨ warnings evs = []) ∧
    (∀ fig w, StPlotlyChart fig w ∈ evs →
       w = true ∧ fig_x fig = "date" ∧ fig_chart fig = Line).
Proof.
  split; [reflexivity|].
  apply (chart_shape (sample_env 1 16 0) TimeSeries (loaded sample_csv)
           0%nat sample_csv "co2" (Some 2015) None).
  reflexivity.
Defined.

Lemma main_warns_three_times_witness :
  pick (sample_env 1 17 3) "Select Gas" = 1%nat ∧
  files (sample_env 1 17 3) !! "data/co2.csv" = Some sample_csv ∧
  snd (run (select_year (sample_env 1 17 3)) start) = Ret (Some 2016) ∧
  snd (run (select_month (sample_env 1 17 3)) start) = Ret (Some 3) ∧
  selected_rows (sample_env 1 17 3) sample_csv (Some 2016) (Some 3) = [] ∧
  ∃ σ' w,
    run (main (sample_env 1 17 3)) start = (σ', Ret tt) ∧
    w = StWarning "No data available for the selected month and year." ∧
    trace σ' =
      trace start ++
      [StTitle "Atmospheric Gases Concentration Dashboard";
       StSelectbox "Select Gas"; StSelectbox "Select Year";
       StSelectbox "Select Month"; OpenFile "data/co2.csv"; w; w; w].
Proof.
  assert (Hfile : files (sample_env 1 17 3) !! "data/co2.csv" = Some sample_csv)
    by (vm_compute; reflexivity).
  assert (Hy : snd (run (select_year (sample_env 1 17 3)) start) = Ret (Some 2016))
    by (vm_compute; reflexivity).
  assert (Hm : snd (run (select_month (sample_env 1 17 3)) start) = Ret (Some 3))
    by (vm_compute; reflexivity).
  assert (Hrows : selected_rows (sample_env 1 17 3) sample_csv (Some 2016) (Some 3) = [])
    by (vm_compute; reflexivity).
  split; [reflexivity|]. split; [exact Hfile|]. split; [exact Hy|].
  split; [exact Hm|]. split; [exact Hrows|].
  exact (main_warns_three_times (sample_env 1 17 3) start sample_csv 2016 (Some 3)
           eq_refl Hfile Hy Hm Hrows).
Defined.

Lemma main_charts_same_rows_witness :
  pick (sample_env 1 16 0) "Select Gas" = 1%nat ∧
  files (sample_env 1 16 0) !! "data/co2.csv" = Some sample_csv ∧
  snd (run (select_year (sample_env 1 16 0)) start) = Ret (Some 2015) ∧
  snd (run (select_month (sample_env 1 16 0)) start) = Ret None ∧
  (Some 2015 = None → @None Z = None) ∧
  (Some 2015 = None ∨
   selected_rows (sample_env 1 16 0) sample_csv (Some 2015) None ≠ []) ∧
  ∃ σ' evs,
    run (main (sample_env 1 16 0)) start = (σ', Ret tt) ∧
    trace σ' = trace start ++ evs ∧
    fig_data <$> charts evs =
      [selected_rows (sample_env 1 16 0) sample_csv (Some 2015) None;
       selected_rows (sample_env 1 16 0) sample_csv (Some 2015) None;
       selected_rows (sample_env 1 16 0) sample_csv (Some 2015) None] ∧
    fig_chart <$> charts evs = [Line; Scatter; Scatter] ∧
    fig_y <$> charts evs = ["Alt_Mean"; "Alt_Mean"; "std CO2"] ∧
    length (stories evs) = 3%nat ∧
    warnings evs = [].
Proof.
  assert (Hfile : files (sample_env 1 16 0) !! "data/co2.csv" = Some sample_csv)
    by (vm_compute; reflexivity).
  assert (Hy : snd (run (select_year (sample_env 1 16 0)) start) = Ret (Some 2015))
    by (vm_compute; reflexivity).
  assert (Hm : snd (run (select_month (sample_env 1 16 0)) start) = Ret None)
    by (vm_compute; reflexivity).
  assert (Hv : Some 2015 = None → @None Z = None) by (intros _; reflexivity).
  assert (Hne : Some 2015 = None ∨
            selected_rows (sample_env 1 16 0) sample_csv (Some 2015) None ≠ [])
    by (right; vm_compute; discriminate).
  split; [reflexivity|]. split; [exact Hfile|]. split; [exact Hy|].
  split; [exact Hm|]. split; [exact Hv|]. split; [exact Hne|].
  exact (main_charts_same_rows (sample_env 1 16 0) start sample_csv (Some 2015) None
           eq_refl Hfile Hy Hm Hv Hne).
Defined.

Lemma clean_nothing_parses env (d : list Row) :
  Forall (λ r, parsed env (date <$> d) r = None) d → clean env d = [].
Proof.
  unfold clean. generalize (date <$> d) as col. intros col Hall.
  induction Hall as [|r d' Hr Hall IH]; [done|].
  cbn [omap list_omap]. rewrite Hr. exact IH.
Qed.

(** X17. With CO2 and a month selected but no year, a run of [main]
    reads the file and then shows nothing below the drop-downs: no
    chart, no story, no message. *)
Theorem main_month_only_blank env σ d m :
  pick env "Select Gas" = 1%nat →
  files env !! "data/co2.csv" = Some d →
  snd (run (select_year env) σ) = Ret None →
  snd (run (select_month env) σ) = Ret (Some m) →
  ∃ σ',
    run (main env) σ = (σ', Ret tt) ∧
    trace σ' =
      trace σ ++
      [StTitle "Atmospheric Gases Concentration Dashboard";
       StSelectbox "Select Gas"; StSelectbox "Select Year";
       StSelectbox "Select Month"; OpenFile "data/co2.csv"].
Proof.
  intros Hpick Hfile. rewrite select_year_result, select_month_result.
  intros [= Hy] [= Hm].
  destruct (main_loaded env σ d Hpick Hfile) as (σ' & Hrun & Htr & _).
  exists σ'. split; [exact Hrun|]. by rewrite Htr, Hy, Hm.
Qed.

(** X18. With nothing selected a pipeline does not test for an empty
    table: when no date of the table parses (or the table has no rows)
    it still draws a chart, of no rows, and writes the story with the
    count 0; there is no warning. *)
Theorem empty_table_still_charted env p σ df d gas :
  heap σ !! df = Some d →
  Forall (λ r, parsed env (date <$> d) r = None) d →
  ∃ fig,
    fig_data fig = [] ∧
    run (draw env p df gas None None) σ =
    (mkState (<[df := []]> (heap σ))
       (trace σ ++
        [StPlotlyChart fig true;
         StWrite ("The " +:+ story_label (Some (chart_type p))
                  +:+ " covers the full dataset with 0 records for "
                  +:+ upper gas +:+ ". "
                  +:+ "This chart provides a comprehensive overview of {gas_name} concentrations over the entire recorded period, allowing us to observe both seasonal and longer-term trends.")]),
     Ret tt).
Proof.
  intros H Hall.
  pose proof (clean_nothing_parses env d Hall) as Hc.
  exists (figure p None None []). split; [done|].
  rewrite (draw_run env p σ df d) by done. unfold draw_result. cbv zeta.
  rewrite Hc. unfold present. cbn [fig_data figure length heap trace].
  rewrite story_none by done. reflexivity.
Qed.

Lemma main_month_only_blank_witness :
  pick (sample_env 1 0 6) "Select Gas" = 1%nat ∧
  files (sample_env 1 0 6) !! "data/co2.csv" = Some sample_csv ∧
  snd (run (select_year (sample_env 1 0 6)) start) = Ret None ∧
  snd (run (select_month (sample_env 1 0 6)) start) = Ret (Some 6) ∧
  ∃ σ',
    run (main (sample_env 1 0 6)) start = (σ', Ret tt) ∧
    trace σ' =
      trace start ++
      [StTitle "Atmospheric Gases Concentration Dashboard";
       StSelectbox "Select Gas"; StSelectbox "Select Year";
       StSelectbox "Select Month"; OpenFile "data/co2.csv"].
Proof.
  assert (Hfile : files (sample_env 1 0 6) !! "data/co2.csv" = Some sample_csv)
    by (vm_compute; reflexivity).
  assert (Hy : snd (run (select_year (sample_env 1 0 6)) start) = Ret None)
    by (vm_compute; reflexivity).
  assert (Hm : snd (run (select_month (sample_env 1 0 6)) start) = Ret (Some 6))
    by (vm_compute; reflexivity).
  split; [reflexivity|]. split; [exact Hfile|]. split; [exact Hy|].
  split; [exact Hm|].
  exact (main_month_only_blank (sample_env 1 0 6) start sample_csv 6
           eq_refl Hfile Hy Hm).
Defined.

(** A table of one row whose date is not a date. *)
Lemma empty_table_still_charted_witness :
  heap (loaded (take 1 (drop 2 sample_csv))) !! 0%nat
    = Some (take 1 (drop 2 sample_csv)) ∧
  Forall (λ r, parsed (sample_env 1 0 0)
                 (date <$> take 1 (drop 2 sample_csv)) r = None)
         (take 1 (drop 2 sample_csv)) ∧
  ∃ fig,
    fig_data fig = [] ∧
    run (draw (sample_env 1 0 0) TimeSeries 0%nat "co2" None None)
        (loaded (take 1 (drop 2 sample_csv))) =
    (mkState (<[0%nat := []]> (heap (loaded (take 1 (drop 2 sample_csv)))))
       (trace (loaded (take 1 (drop 2 sample_csv))) ++
        [StPlotlyChart fig true;
         StWrite ("The " +:+ story_label (Some (chart_type TimeSeries))
                  +:+ " covers the full dataset with 0 records for "
                  +:+ upper "co2" +:+ ". "
                  +:+ "This chart provides a comprehensive overview of {gas_name} concentrations over the entire recorded period, allowing us to observe both seasonal and longer-term trends.")]),
     Ret tt).
Proof.
  assert (Hall : Forall (λ r, parsed (sample_env 1 0 0)
                 (date <$> take 1 (drop 2 sample_csv)) r = None)
         (take 1 (drop 2 sample_csv)))
    by (repeat constructor).
  split; [reflexivity|]. split; [exact Hall|].
  exact (empty_table_still_charted (sample_env 1 0 0) TimeSeries
           (loaded (take 1 (drop 2 sample_csv))) 0%nat
           (take 1 (drop 2 sample_csv)) "co2" eq_refl Hall).
Defined.
